(** * Reefnet Sensus Ultra parser: a shallow embedding and its properties

    The development embeds [src/reefnet_sensusultra_parser.c] of
    libdivecomputer: the parser object, the cached aggregate scan of
    [get_field], the clock re-basing of [get_datetime] and the record /
    sample scanner of [samples_foreach].

    Conventions.
    - [unsigned int] is a 32-bit integer, modelled as [Z] with the
      wrap-around [wrap32] written at every operation that can overflow;
      [size_t] is 64 bits wide (LP64), so [offset + sizeof (footer)] is
      formed without wrap-around.
    - [double] is IEEE 754 binary64, modelled by the primitive floats.
    - A buffer view [(data, size)] is the byte list it designates, and
      [size] is its length.
    - [dc_ticks_t] is a signed 64-bit integer; its one subtraction, in
      [get_datetime], is taken in [Z] (signed overflow is undefined in C).
    - Reads of the buffer and invocations of the sample callback are
      recorded, in program order, in a trace of events.
    - A [while] loop is a fixpoint on an iteration budget and yields
      [None] when the budget runs out; the operations pass a budget above
      the buffer length, and the lemmas show that it always suffices. *)

From Stdlib Require Import ZArith List Bool Lia.
From Stdlib.Strings Require Import Byte.
From Stdlib Require Import Floats Uint63.
Import ListNotations.
Local Open Scope Z_scope.

(* Decimal literals such as 273.15 denote the nearest binary64 value, as
   they do in C. *)
Set Warnings "-inexact-float".

(** ** Machine integers and floating point *)

Definition UINT_MAX : Z := 4294967295.

(** Reduction of an integer result to [unsigned int]. *)
Definition wrap32 (n : Z) : Z := n mod 4294967296.

(** Conversion [unsigned int -> double] (exact below 2^53). *)
Definition double_of_uint (n : Z) : float := PrimFloat.of_uint63 (Uint63.of_Z n).

(** ** Enumerations of the public headers *)

(** The status codes the parser returns. *)
Inductive dc_status_t : Set :=
| DC_STATUS_SUCCESS
| DC_STATUS_UNSUPPORTED
| DC_STATUS_INVALIDARGS
| DC_STATUS_NOMEMORY
| DC_STATUS_DATAFORMAT.

(** The field kinds of [get_field]; [FIELD_TYPE_OTHER] stands for every
    enumerator the switch of this parser does not name. *)
Inductive parser_field_type_t : Set :=
| FIELD_TYPE_DIVETIME
| FIELD_TYPE_MAXDEPTH
| FIELD_TYPE_GASMIX_COUNT
| FIELD_TYPE_OTHER (code : Z).

(** The sample kinds this parser emits. *)
Inductive parser_sample_type_t : Set :=
| SAMPLE_TYPE_TIME
| SAMPLE_TYPE_TEMPERATURE
| SAMPLE_TYPE_DEPTH.

(** The union [parser_sample_value_t], tagged with the member written
    last before the callback is invoked. *)
Inductive parser_sample_value_t : Set :=
| sample_time (time : Z)
| sample_temperature (temperature : float)
| sample_depth (depth : float).

(** The storage behind the [void *value] argument of [get_field]. *)
Inductive field_value : Set :=
| FV_uint (n : Z)
| FV_double (d : float).

(** The device families a [parser_t] can belong to. *)
Inductive parser_backend_t : Set :=
| reefnet_sensusultra_parser_backend
| other_parser_backend (family : Z).

Definition parser_backend_eqb (a b : parser_backend_t) : bool :=
  match a, b with
  | reefnet_sensusultra_parser_backend, reefnet_sensusultra_parser_backend => true
  | other_parser_backend f, other_parser_backend g => f =? g
  | _, _ => false
  end.

(** ** The parser object *)

(** The base class [parser_t]: the backend and the installed view. *)
Record parser_t : Set := mk_parser_t {
  backend : parser_backend_t;
  data : list byte
}.

(** [abstract->size]. *)
Definition size (abstract : parser_t) : Z := Z.of_nat (length (data abstract)).

Record reefnet_sensusultra_parser_t : Set := mk_parser {
  base : parser_t;
  (* Depth calibration. *)
  atmospheric : float;
  hydrostatic : float;
  (* Clock synchronization. *)
  devtime : Z;
  systime : Z;
  (* Cached fields. *)
  cached : Z;
  divetime : Z;
  maxdepth : Z
}.

Definition set_base (p : reefnet_sensusultra_parser_t) (b : parser_t) :=
  mk_parser b (atmospheric p) (hydrostatic p) (devtime p) (systime p)
            (cached p) (divetime p) (maxdepth p).

Definition set_calibration_fields (p : reefnet_sensusultra_parser_t) (a h : float) :=
  mk_parser (base p) a h (devtime p) (systime p)
            (cached p) (divetime p) (maxdepth p).

Definition set_cache_fields (p : reefnet_sensusultra_parser_t) (c d m : Z) :=
  mk_parser (base p) (atmospheric p) (hydrostatic p) (devtime p) (systime p)
            c d m.

(** ** Observable events and the effect monad *)

Inductive event : Set :=
| EvRead (offset : Z)
| EvCallback (type : parser_sample_type_t) (value : parser_sample_value_t).

(** A computation yields a value and the events it performed, or [None]
    when a loop used up its iteration budget. *)
Definition M (A : Type) : Type := option (A * list event).

Definition ret {A : Type} (a : A) : M A := Some (a, []).

Definition bind {A B : Type} (c : M A) (k : A -> M B) : M B :=
  match c with
  | None => None
  | Some (a, t1) =>
      match k a with
      | None => None
      | Some (b, t2) => Some (b, t1 ++ t2)
      end
  end.

Definition emit (e : event) : M unit := Some (tt, [e]).

Notation "x <- c1 ;; c2" := (bind c1 (fun x => c2))
  (at level 61, c1 at next level, right associativity).
Notation "c1 ;; c2" := (bind c1 (fun _ => c2))
  (at level 61, right associativity).

(** The buffer offsets a trace reads, and the callbacks it invokes. *)
Definition reads (t : list event) : list Z :=
  flat_map (fun e => match e with EvRead o => [o] | _ => [] end) t.

Definition callbacks (t : list event) : list (parser_sample_type_t * parser_sample_value_t) :=
  flat_map (fun e => match e with EvCallback ty v => [(ty, v)] | _ => [] end) t.

(** ** Buffer access *)

(** The value of an [unsigned char]. *)
Definition bval (b : byte) : Z := Z.of_N (Byte.to_N b).

(** The byte at [offset], as a number. *)
Definition byte_at (data : list byte) (offset : Z) : Z :=
  bval (nth (Z.to_nat offset) data x00).

Definition read_byte (data : list byte) (offset : Z) : M Z :=
  emit (EvRead offset) ;; ret (byte_at data offset).

(** Modelled from the spec: [array_uint16_le] of array.c, which is not
    part of the sources at hand; a 2-byte little-endian read. *)
Definition array_uint16_le (data : list byte) (offset : Z) : M Z :=
  b0 <- read_byte data offset ;;
  b1 <- read_byte data (offset + 1) ;;
  ret (b0 + Z.shiftl b1 8).

(** Modelled from the spec: [array_uint32_le] of array.c, which is not
    part of the sources at hand; a 4-byte little-endian read. *)
Definition array_uint32_le (data : list byte) (offset : Z) : M Z :=
  b0 <- read_byte data offset ;;
  b1 <- read_byte data (offset + 1) ;;
  b2 <- read_byte data (offset + 2) ;;
  b3 <- read_byte data (offset + 3) ;;
  ret (b0 + Z.shiftl b1 8 + Z.shiftl b2 16 + Z.shiftl b3 24).

(** [memcmp (data + offset, s2, n)] with [n] the length of [s2]: zero
    when the bytes agree, else the difference at the first mismatch. *)
Fixpoint memcmp (data : list byte) (offset : Z) (s2 : list byte) : M Z :=
  match s2 with
  | [] => ret 0
  | c :: s2' =>
      b <- read_byte data offset ;;
      r <- memcmp data (offset + 1) s2' ;;
      ret (if b =? bval c then r else b - bval c)
  end.

Arguments wrap32 : simpl never.
Arguments bval : simpl never.
Arguments byte_at : simpl never.

Definition header : list byte := [x00; x00; x00; x00].
Definition footer : list byte := [xff; xff; xff; xff].

(** ** The parser operations *)

Section Parser.

(** The constants of units.h and the calendar conversion of datetime.c are
    not part of the sources at hand; the parser is embedded over them. *)
Variables ATM GRAVITY BAR : float.
Variable dc_datetime_t : Type.
Variable dc_datetime_localtime : Z -> option dc_datetime_t.

Definition parser_is_reefnet_sensusultra (abstract : option reefnet_sensusultra_parser_t) : bool :=
  match abstract with
  | None => false
  | Some p => parser_backend_eqb (backend (base p)) reefnet_sensusultra_parser_backend
  end.

(** Modelled from the spec: [parser_init] of parser.c, which is not part
    of the sources at hand; it records the backend and leaves no buffer
    installed. *)
Definition parser_init (b : parser_backend_t) : parser_t := mk_parser_t b [].

(** [out] tells whether the output slot is non-NULL, [malloc] whether the
    allocation succeeds. *)
Definition reefnet_sensusultra_parser_create (out malloc : bool) (devtime systime : Z)
  : dc_status_t * option reefnet_sensusultra_parser_t :=
  if negb out then (DC_STATUS_INVALIDARGS, None)
  else if negb malloc then (DC_STATUS_NOMEMORY, None)
  else (DC_STATUS_SUCCESS,
        Some (mk_parser (parser_init reefnet_sensusultra_parser_backend)
                        ATM (1025 * GRAVITY)%float devtime systime 0 0 0)).

(** The backend function: it resets the cache and touches nothing else
    (the [data] and [size] arguments are not used). *)
Definition reefnet_sensusultra_parser_set_data
    (abstract : option reefnet_sensusultra_parser_t) (data : list byte) (size : Z)
  : dc_status_t * option reefnet_sensusultra_parser_t :=
  if negb (parser_is_reefnet_sensusultra abstract) then (DC_STATUS_INVALIDARGS, abstract)
  else (DC_STATUS_SUCCESS,
        option_map (fun parser => set_cache_fields parser 0 0 0) abstract).

(** Modelled from the spec: the public [parser_set_data] of parser.c,
    which is not part of the sources at hand; it replaces the view held
    by the base class and then calls the backend function. *)
Definition parser_set_data
    (parser : option reefnet_sensusultra_parser_t) (data : list byte)
  : dc_status_t * option reefnet_sensusultra_parser_t :=
  match parser with
  | None => (DC_STATUS_INVALIDARGS, None)
  | Some p =>
      reefnet_sensusultra_parser_set_data
        (Some (set_base p (mk_parser_t (backend (base p)) data)))
        data (Z.of_nat (length data))
  end.

Definition reefnet_sensusultra_parser_set_calibration
    (abstract : option reefnet_sensusultra_parser_t) (atmospheric hydrostatic : float)
  : dc_status_t * option reefnet_sensusultra_parser_t :=
  if negb (parser_is_reefnet_sensusultra abstract) then (DC_STATUS_INVALIDARGS, abstract)
  else (DC_STATUS_SUCCESS,
        option_map (fun parser => set_calibration_fields parser atmospheric hydrostatic)
                   abstract).

(** The result carries the calendar time written through [datetime]. *)
Definition reefnet_sensusultra_parser_get_datetime (parser : reefnet_sensusultra_parser_t)
  : M (dc_status_t * option dc_datetime_t) :=
  let abstract := base parser in
  if size abstract <? 4 + 4 then ret (DC_STATUS_DATAFORMAT, None)
  else
    timestamp <- array_uint32_le (data abstract) 4 ;;
    let ticks := systime parser - wrap32 (devtime parser - timestamp) in
    match dc_datetime_localtime ticks with
    | None => ret (DC_STATUS_DATAFORMAT, None)
    | Some dt => ret (DC_STATUS_SUCCESS, Some dt)
    end.

(** The [while] loop of [get_field]; it yields [(maxdepth, nsamples)]. *)
Fixpoint get_field_loop (fuel : nat) (data : list byte)
    (size threshold offset maxdepth nsamples : Z) : M (Z * Z) :=
  match fuel with
  | O => None
  | S fuel =>
      if offset + 4 <=? size then
        r <- memcmp data offset footer ;;
        if negb (r =? 0) then
          depth <- array_uint16_le data (offset + 2) ;;
          let '(maxdepth, nsamples) :=
            if depth >=? threshold
            then (if depth >? maxdepth then depth else maxdepth, wrap32 (nsamples + 1))
            else (maxdepth, nsamples) in
          get_field_loop fuel data size threshold (wrap32 (offset + 4)) maxdepth nsamples
        else ret (maxdepth, nsamples)
      else ret (maxdepth, nsamples)
  end.

(** The MAXDEPTH conversion, as the source writes it. *)
Definition depth_of (raw : Z) (atmospheric hydrostatic : float) : float :=
  ((double_of_uint raw * BAR / 1000 - atmospheric) / hydrostatic)%float.

(** [value] is [None] for a NULL pointer, else the storage pointed to;
    the result carries the parser and the storage after the call. *)
Definition reefnet_sensusultra_parser_get_field (parser : reefnet_sensusultra_parser_t)
    (type : parser_field_type_t) (flags : Z) (value : option field_value)
  : M (dc_status_t * reefnet_sensusultra_parser_t * option field_value) :=
  let abstract := base parser in
  if size abstract <? 20 then ret (DC_STATUS_DATAFORMAT, parser, value)
  else
    parser <-
      (if cached parser =? 0 then
         interval <- array_uint16_le (data abstract) 8 ;;
         threshold <- array_uint16_le (data abstract) 10 ;;
         r <- get_field_loop (S (length (data abstract))) (data abstract) (size abstract)
                             threshold 16 0 0 ;;
         let '(maxdepth, nsamples) := r in
         ret (set_cache_fields parser 1 (wrap32 (nsamples * interval)) maxdepth)
       else ret parser) ;;
    match value with
    | Some _ =>
        match type with
        | FIELD_TYPE_DIVETIME =>
            ret (DC_STATUS_SUCCESS, parser, Some (FV_uint (divetime parser)))
        | FIELD_TYPE_MAXDEPTH =>
            ret (DC_STATUS_SUCCESS, parser,
                 Some (FV_double (depth_of (maxdepth parser) (atmospheric parser)
                                           (hydrostatic parser))))
        | FIELD_TYPE_GASMIX_COUNT =>
            ret (DC_STATUS_SUCCESS, parser, Some (FV_uint 0))
        | FIELD_TYPE_OTHER _ =>
            ret (DC_STATUS_UNSUPPORTED, parser, value)
        end
    | None => ret (DC_STATUS_SUCCESS, parser, value)
    end.

(** [callback (type, sample, userdata)] when [callback] is not NULL. *)
Definition invoke (callback : bool) (type : parser_sample_type_t)
    (sample : parser_sample_value_t) : M unit :=
  if callback then emit (EvCallback type sample) else ret tt.

(** The inner [while] loop of [samples_foreach], over the sample units. *)
Fixpoint samples_loop (fuel : nat) (parser : reefnet_sensusultra_parser_t)
    (callback : bool) (data : list byte) (size interval offset time : Z) : M unit :=
  match fuel with
  | O => None
  | S fuel =>
      if offset + 4 <=? size then
        r <- memcmp data offset footer ;;
        if negb (r =? 0) then
          (* Time (seconds) *)
          let time := wrap32 (time + interval) in
          invoke callback SAMPLE_TYPE_TIME (sample_time time) ;;
          (* Temperature (0.01 K) *)
          temperature <- array_uint16_le data offset ;;
          invoke callback SAMPLE_TYPE_TEMPERATURE
                 (sample_temperature (double_of_uint temperature / 100 - 273.15)%float) ;;
          (* Depth (absolute pressure in millibar) *)
          depth <- array_uint16_le data (offset + 2) ;;
          invoke callback SAMPLE_TYPE_DEPTH
                 (sample_depth (depth_of depth (atmospheric parser) (hydrostatic parser))) ;;
          samples_loop fuel parser callback data size interval (wrap32 (offset + 4)) time
        else ret tt
      else ret tt
  end.

(** The outer [while] loop of [samples_foreach], looking for the header. *)
Fixpoint header_loop (fuel : nat) (parser : reefnet_sensusultra_parser_t)
    (callback : bool) (data : list byte) (size offset : Z) : M dc_status_t :=
  match fuel with
  | O => None
  | S fuel =>
      if offset + 4 <=? size then
        r <- memcmp data offset header ;;
        if r =? 0 then
          if wrap32 (offset + 16) >? size then ret DC_STATUS_DATAFORMAT
          else
            interval <- array_uint16_le data (offset + 8) ;;
            samples_loop (S (length data)) parser callback data size interval
                         (wrap32 (offset + 16)) 0 ;;
            ret DC_STATUS_SUCCESS
        else header_loop fuel parser callback data size (wrap32 (offset + 1))
      else ret DC_STATUS_SUCCESS
  end.

(** [callback] tells whether the callback pointer is non-NULL. *)
Definition reefnet_sensusultra_parser_samples_foreach
    (abstract : option reefnet_sensusultra_parser_t) (callback : bool) : M dc_status_t :=
  if negb (parser_is_reefnet_sensusultra abstract) then ret DC_STATUS_INVALIDARGS
  else
    match abstract with
    | None => ret DC_STATUS_INVALIDARGS
    | Some parser =>
        header_loop (S (length (data (base parser)))) parser callback
                    (data (base parser)) (size (base parser)) 0
    end.

(** The result carries the object after the call: [None] once freed. *)
Definition reefnet_sensusultra_parser_destroy
    (abstract : option reefnet_sensusultra_parser_t)
  : dc_status_t * option reefnet_sensusultra_parser_t :=
  if negb (parser_is_reefnet_sensusultra abstract) then (DC_STATUS_INVALIDARGS, abstract)
  else (DC_STATUS_SUCCESS, None).

(** ** The scans, as the specification words them *)

(** A 2-byte little-endian value. *)
Definition le16 (b0 b1 : byte) : Z := bval b0 + Z.shiftl (bval b1) 8.

(** The 2-byte and 4-byte little-endian fields of a buffer. *)
Definition u16 (data : list byte) (offset : Z) : Z :=
  byte_at data offset + Z.shiftl (byte_at data (offset + 1)) 8.

Definition u32 (data : list byte) (offset : Z) : Z :=
  byte_at data offset + Z.shiftl (byte_at data (offset + 1)) 8
  + Z.shiftl (byte_at data (offset + 2)) 16 + Z.shiftl (byte_at data (offset + 3)) 24.

Definition is_byte (c : byte) (b : byte) : bool := Byte.eqb b c.

Definition is_footer (b0 b1 b2 b3 : byte) : bool :=
  is_byte xff b0 && is_byte xff b1 && is_byte xff b2 && is_byte xff b3.

Definition is_header (b0 b1 b2 b3 : byte) : bool :=
  is_byte x00 b0 && is_byte x00 b1 && is_byte x00 b2 && is_byte x00 b3.

(** The sample units of a region, as pairs (temperature_raw, depth_raw):
    4 bytes at a time, until fewer than 4 bytes remain or the next 4
    bytes are the footer. *)
Fixpoint sample_units (l : list byte) : list (Z * Z) :=
  match l with
  | b0 :: b1 :: b2 :: b3 :: rest =>
      if is_footer b0 b1 b2 b3 then []
      else (le16 b0 b1, le16 b2 b3) :: sample_units rest
  | _ => []
  end.

(** The depths of the qualifying units: those not below the threshold. *)
Definition qualifying (threshold : Z) (us : list (Z * Z)) : list Z :=
  filter (fun depth => threshold <=? depth) (map snd us).

(** The largest of a list of depths, 0 when there is none. *)
Definition largest (depths : list Z) : Z := fold_right Z.max 0 depths.

Definition scan_interval (data : list byte) : Z := u16 data 8.
Definition scan_threshold (data : list byte) : Z := u16 data 10.
Definition scan_units (data : list byte) : list (Z * Z) := sample_units (skipn 16 data).

(** total_dive_seconds and max_depth_raw of a buffer. *)
Definition scan_divetime (data : list byte) : Z :=
  wrap32 (Z.of_nat (length (qualifying (scan_threshold data) (scan_units data)))
          * scan_interval data).

Definition scan_maxdepth (data : list byte) : Z :=
  largest (qualifying (scan_threshold data) (scan_units data)).

(** The offsets the aggregate scan reads in the region [l] that starts at
    [offset]: the 4 bytes compared with the footer, then the depth. *)
Fixpoint scan_reads (offset : Z) (l : list byte) : list Z :=
  match l with
  | b0 :: b1 :: b2 :: b3 :: rest =>
      [offset; offset + 1; offset + 2; offset + 3]
      ++ (if is_footer b0 b1 b2 b3 then []
          else [offset + 2; offset + 3] ++ scan_reads (offset + 4) rest)
  | _ => []
  end.

(** The offset of the first 4-byte all-zero sentinel, scanning byte by
    byte while at least 4 bytes remain. *)
Fixpoint find_header (l : list byte) : option nat :=
  match l with
  | [] => None
  | b0 :: t =>
      match t with
      | b1 :: b2 :: b3 :: _ =>
          if is_header b0 b1 b2 b3 then Some O else option_map S (find_header t)
      | _ => None
      end
  end.

(** ** Notions used to state the properties *)

(** What [get_field] answers once the cache is filled: the switch on the
    field kind, guarded by the output pointer. *)
Definition answer (p : reefnet_sensusultra_parser_t) (type : parser_field_type_t)
    (value : option field_value)
  : dc_status_t * reefnet_sensusultra_parser_t * option field_value :=
  match value with
  | None => (DC_STATUS_SUCCESS, p, None)
  | Some _ =>
      match type with
      | FIELD_TYPE_DIVETIME => (DC_STATUS_SUCCESS, p, Some (FV_uint (divetime p)))
      | FIELD_TYPE_MAXDEPTH =>
          (DC_STATUS_SUCCESS, p,
           Some (FV_double (depth_of (maxdepth p) (atmospheric p) (hydrostatic p))))
      | FIELD_TYPE_GASMIX_COUNT => (DC_STATUS_SUCCESS, p, Some (FV_uint 0))
      | FIELD_TYPE_OTHER _ => (DC_STATUS_UNSUPPORTED, p, value)
      end
  end.

(** The parser after a scan of its buffer. *)
Definition scanned (p : reefnet_sensusultra_parser_t) : reefnet_sensusultra_parser_t :=
  set_cache_fields p 1 (scan_divetime (data (base p))) (scan_maxdepth (data (base p))).

(** The offsets a scan reads: interval, threshold, then the units. *)
Definition full_scan_reads (d : list byte) : list Z :=
  [8; 9; 10; 11] ++ scan_reads 16 (skipn 16 d).

(** The next 4 bytes at [offset] are the footer. *)
Definition footer_at (d : list byte) (offset : Z) : Prop :=
  byte_at d offset = 255 /\ byte_at d (offset + 1) = 255
  /\ byte_at d (offset + 2) = 255 /\ byte_at d (offset + 3) = 255.

(** An offset within the buffer. *)
Definition in_bounds (d : list byte) (offset : Z) : Prop :=
  0 <= offset < Z.of_nat (length d).

(** A computation over the buffer [d] terminates with the result [a],
    invokes the callbacks [cs] and reads within the buffer only. *)
Definition yields {A : Type} (d : list byte) (c : M A) (a : A)
    (cs : list (parser_sample_type_t * parser_sample_value_t)) : Prop :=
  exists t, c = Some (a, t) /\ callbacks t = cs /\ Forall (in_bounds d) (reads t).

(** The parser once [d] is installed through the public [set_data]. *)
Definition installed (p0 : reefnet_sensusultra_parser_t) (d : list byte)
  : reefnet_sensusultra_parser_t :=
  set_cache_fields (set_base p0 (mk_parser_t (backend (base p0)) d)) 0 0 0.

(** The status and calendar time [get_datetime] yields for a tick value. *)
Definition datetime_of (ticks : Z) : dc_status_t * option dc_datetime_t :=
  match dc_datetime_localtime ticks with
  | None => (DC_STATUS_DATAFORMAT, None)
  | Some dt => (DC_STATUS_SUCCESS, Some dt)
  end.

(** The states a parser of this family goes through: it is created, then
    buffers are installed, the calibration is set and fields are queried
    ([get_datetime] and [samples_foreach] do not write to the parser). *)
Inductive reachable : reefnet_sensusultra_parser_t -> Prop :=
| reach_create (devtime systime : Z) (p : reefnet_sensusultra_parser_t) :
    reefnet_sensusultra_parser_create true true devtime systime
    = (DC_STATUS_SUCCESS, Some p) ->
    reachable p
| reach_set_data (p p' : reefnet_sensusultra_parser_t) (d : list byte) :
    reachable p ->
    Z.of_nat (length d) <= UINT_MAX ->
    parser_set_data (Some p) d = (DC_STATUS_SUCCESS, Some p') ->
    reachable p'
| reach_set_calibration (p p' : reefnet_sensusultra_parser_t) (a h : float) :
    reachable p ->
    reefnet_sensusultra_parser_set_calibration (Some p) a h = (DC_STATUS_SUCCESS, Some p') ->
    reachable p'
| reach_get_field (p p' : reefnet_sensusultra_parser_t) (type : parser_field_type_t)
    (flags : Z) (value value' : option field_value) (st : dc_status_t) (t : list event) :
    reachable p ->
    reefnet_sensusultra_parser_get_field p type flags value = Some ((st, p', value'), t) ->
    reachable p'.

(** The cache, when valid, holds the scan of the installed buffer. *)
Definition cache_inv (p : reefnet_sensusultra_parser_t) : Prop :=
  parser_is_reefnet_sensusultra (Some p) = true
  /\ size (base p) <= UINT_MAX
  /\ (cached p <> 0 ->
      20 <= size (base p)
      /\ divetime p = scan_divetime (data (base p))
      /\ maxdepth p = scan_maxdepth (data (base p))).

(** The time emitted with the k-th sample of a record, counting from 0. *)
Definition sample_time_of (interval : Z) (k : nat) : Z :=
  wrap32 (Z.of_nat (S k) * interval).

(** The three callbacks of the k-th sample: TIME, TEMPERATURE, DEPTH. *)
Definition sample_callbacks (p : reefnet_sensusultra_parser_t) (interval : Z)
    (k : nat) (u : Z * Z) : list (parser_sample_type_t * parser_sample_value_t) :=
  [ (SAMPLE_TYPE_TIME, sample_time (sample_time_of interval k));
    (SAMPLE_TYPE_TEMPERATURE,
     sample_temperature (double_of_uint (fst u) / 100 - 273.15)%float);
    (SAMPLE_TYPE_DEPTH,
     sample_depth ((double_of_uint (snd u) * BAR / 1000 - atmospheric p)
                   / hydrostatic p)%float) ].

(** The callbacks of the units [us] of a record, the first being the
    k-th sample. *)
Fixpoint record_callbacks (p : reefnet_sensusultra_parser_t) (interval : Z)
    (k : nat) (us : list (Z * Z)) : list (parser_sample_type_t * parser_sample_value_t) :=
  match us with
  | [] => []
  | u :: us' => sample_callbacks p interval k u ++ record_callbacks p interval (S k) us'
  end.

(** The 4 bytes at offset [j] of a buffer are the zero sentinel. *)
Definition sentinel_at (d : list byte) (j : nat) : Prop :=
  firstn 4 (skipn j d) = header.

(** A trace without its callback invocations. *)
Definition drop_callbacks (t : list event) : list event :=
  filter (fun e => match e with EvRead _ => true | EvCallback _ _ => false end) t.

(** What a computation yields when its trace loses the callbacks. *)
Definition without_callbacks {A : Type} (c : M A) : M A :=
  match c with
  | None => None
  | Some (a, t) => Some (a, drop_callbacks t)
  end.

(** The raw depth of the k-th unit of the aggregate scan. *)
Definition depth_at (d : list byte) (k : nat) : Z := u16 d (16 + 4 * Z.of_nat k + 2).

(** ** Sample data *)

(** A download with two records. The first: timestamp 900, interval 10,
    threshold 100, a sample of depth 50 and one of depth 200, footer.
    The second: interval 5, one sample, footer. *)
Definition first_record : list byte :=
  [x00; x00; x00; x00;  x84; x03; x00; x00;  x0a; x00;  x64; x00;  x00; x00; x00; x00;
   x10; x71; x32; x00;
   x20; x72; xc8; x00].

Definition second_record : list byte :=
  [x00; x00; x00; x00;  x90; x03; x00; x00;  x05; x00;  x64; x00;  x00; x00; x00; x00;
   x30; x73; xd2; x00;
   xff; xff; xff; xff].

Definition dive_buffer : list byte := first_record ++ footer ++ second_record.

(** 24 zero bytes: a zero sentinel at offset 0, interval 0, two units. *)
Definition zero_buffer : list byte := repeat x00 24.

Definition short_buffer : list byte := [x00; x01; x02; x03; x04].

(** A parser as [create] leaves it, with the constants of units.h. *)
Definition fresh_parser : reefnet_sensusultra_parser_t :=
  mk_parser (parser_init reefnet_sensusultra_parser_backend)
            101325 (1025 * 9.80665) 1000 50000 0 0 0.

(** The time values among a list of callbacks. *)
Definition callback_times (cs : list (parser_sample_type_t * parser_sample_value_t))
  : list Z :=
  flat_map (fun c => match c with (_, sample_time t) => [t] | _ => [] end) cs.

(** A parser whose cache is valid and holds the scan of another buffer. *)
Definition stale_parser : reefnet_sensusultra_parser_t :=
  set_cache_fields (installed fresh_parser zero_buffer) 1 999 999.

(** A parser of another device family. *)
Definition foreign_parser : reefnet_sensusultra_parser_t :=
  set_base fresh_parser (mk_parser_t (other_parser_backend 7) dive_buffer).

(** A download whose record starts at offset 3, off the 4-byte grid. *)
Definition shifted_buffer : list byte := [x01; x02; x03] ++ dive_buffer.

(** A long dive: interval 65535, threshold 0, then 65538 units of depth
    1 and no footer; 262168 bytes. *)
Definition long_dive_unit : list byte := [x10; x71; x01; x00].

Definition long_dive_buffer : list byte :=
  [x00; x00; x00; x00;  x84; x03; x00; x00;  xff; xff;  x00; x00;  x00; x00; x00; x00]
  ++ concat (repeat long_dive_unit (Z.to_nat 65538)).

(** A record stamped 1001, one tick after the device time 1000 of
    [fresh_parser]. *)
Definition late_buffer : list byte :=
  [x00; x00; x00; x00;  xe9; x03; x00; x00;  x0a; x00;  x64; x00;  x00; x00; x00; x00].



(** ** Bytes and little-endian fields *)

Lemma bval_range (b : byte) : 0 <= bval b <= 255.
Proof.
  unfold bval. pose proof (Byte.to_N_bounded b) as H.
  split; [apply N2Z.is_nonneg|].
  change 255 with (Z.of_N 255). apply N2Z.inj_le. exact H.
Qed.

Lemma bval_inj (b c : byte) : bval b = bval c -> b = c.
Proof.
  unfold bval. intros H. apply N2Z.inj in H.
  pose proof (Byte.of_to_N b) as Hb. rewrite H, Byte.of_to_N in Hb.
  congruence.
Qed.

Lemma bval_eqb (b c : byte) : (bval b =? bval c) = is_byte c b.
Proof.
  unfold is_byte. destruct (Byte.eqb b c) eqn:E.
  - apply Byte.byte_dec_bl in E. subst. apply Z.eqb_refl.
  - apply Z.eqb_neq. intros H. apply bval_inj in H.
    apply Byte.eqb_false in E. contradiction.
Qed.

Lemma shiftl_8 (n : Z) : Z.shiftl n 8 = n * 256.
Proof. rewrite Z.shiftl_mul_pow2 by lia. reflexivity. Qed.

Lemma le16_range (b0 b1 : byte) : 0 <= le16 b0 b1 <= 65535.
Proof.
  unfold le16. rewrite shiftl_8.
  pose proof (bval_range b0). pose proof (bval_range b1). lia.
Qed.

Lemma u16_range (data : list byte) (o : Z) : 0 <= u16 data o <= 65535.
Proof.
  unfold u16, byte_at. rewrite shiftl_8.
  pose proof (bval_range (nth (Z.to_nat o) data x00)).
  pose proof (bval_range (nth (Z.to_nat (o + 1)) data x00)). lia.
Qed.

(** A byte of [pre ++ l] past [pre] is a byte of [l]. *)
Lemma byte_at_app (pre l : list byte) (i : Z) :
  0 <= i -> byte_at (pre ++ l) (Z.of_nat (length pre) + i) = byte_at l i.
Proof.
  intros Hi. unfold byte_at. f_equal.
  replace (Z.to_nat (Z.of_nat (length pre) + i)) with (length pre + Z.to_nat i)%nat by lia.
  rewrite app_nth2 by lia. f_equal. lia.
Qed.

(** ** Running the buffer accessors *)

Lemma array_uint16_le_run (data : list byte) (o : Z) :
  array_uint16_le data o = Some (u16 data o, [EvRead o; EvRead (o + 1)]).
Proof. reflexivity. Qed.

Lemma array_uint32_le_run (data : list byte) (o : Z) :
  array_uint32_le data o
  = Some (u32 data o, [EvRead o; EvRead (o + 1); EvRead (o + 2); EvRead (o + 3)]).
Proof. reflexivity. Qed.

(** Comparing 4 bytes: all of them are read, and the result is zero
    exactly when they agree with the pattern. *)
Lemma memcmp_run (data : list byte) (o : Z) (c0 c1 c2 c3 : byte) :
  exists r,
    memcmp data o [c0; c1; c2; c3]
    = Some (r, [EvRead o; EvRead (o + 1); EvRead (o + 2); EvRead (o + 3)])
    /\ (r =? 0) = (byte_at data o =? bval c0) && (byte_at data (o + 1) =? bval c1)
                  && (byte_at data (o + 2) =? bval c2) && (byte_at data (o + 3) =? bval c3).
Proof.
  replace (o + 2) with (o + 1 + 1) by lia.
  replace (o + 3) with (o + 1 + 1 + 1) by lia.
  eexists. split; [reflexivity|].
  destruct (byte_at data o =? bval c0) eqn:E0;
    destruct (byte_at data (o + 1) =? bval c1) eqn:E1;
    destruct (byte_at data (o + 1 + 1) =? bval c2) eqn:E2;
    destruct (byte_at data (o + 1 + 1 + 1) =? bval c3) eqn:E3;
    cbn [andb]; try reflexivity; apply Z.eqb_neq;
    repeat match goal with H : (_ =? _) = false |- _ => apply Z.eqb_neq in H end; lia.
Qed.

Lemma bind_Some {A B : Type} (a : A) (t : list event) (k : A -> M B) :
  bind (Some (a, t)) k
  = match k a with None => None | Some (b, t2) => Some (b, t ++ t2) end.
Proof. reflexivity. Qed.

(** The 4 bytes of the unit that follows [pre]. *)
Lemma unit_bytes (data pre rest : list byte) (b0 b1 b2 b3 : byte) :
  data = pre ++ b0 :: b1 :: b2 :: b3 :: rest ->
  let o := Z.of_nat (length pre) in
  byte_at data o = bval b0 /\ byte_at data (o + 1) = bval b1
  /\ byte_at data (o + 2) = bval b2 /\ byte_at data (o + 3) = bval b3.
Proof.
  intros -> o. subst o.
  rewrite <- (Z.add_0_r (Z.of_nat (length pre))) at 1.
  rewrite !byte_at_app by lia. repeat split; reflexivity.
Qed.

Lemma unit_fields (data pre rest : list byte) (b0 b1 b2 b3 : byte) :
  data = pre ++ b0 :: b1 :: b2 :: b3 :: rest ->
  let o := Z.of_nat (length pre) in
  u16 data o = le16 b0 b1 /\ u16 data (o + 2) = le16 b2 b3.
Proof.
  intros H o. destruct (unit_bytes _ _ _ _ _ _ _ H) as (H0 & H1 & H2 & H3).
  fold o in H0, H1, H2, H3. unfold u16, le16.
  replace (o + 2 + 1) with (o + 3) by lia.
  rewrite H0, H1, H2, H3. split; reflexivity.
Qed.

(** Comparing the unit that follows [pre] with a pattern of one byte. *)
Lemma memcmp_unit (data pre rest : list byte) (b0 b1 b2 b3 c : byte) :
  data = pre ++ b0 :: b1 :: b2 :: b3 :: rest ->
  let o := Z.of_nat (length pre) in
  exists r,
    memcmp data o [c; c; c; c]
    = Some (r, [EvRead o; EvRead (o + 1); EvRead (o + 2); EvRead (o + 3)])
    /\ (r =? 0) = is_byte c b0 && is_byte c b1 && is_byte c b2 && is_byte c b3.
Proof.
  intros H o. destruct (unit_bytes _ _ _ _ _ _ _ H) as (H0 & H1 & H2 & H3).
  fold o in H0, H1, H2, H3.
  destruct (memcmp_run data o c c c c) as (r & Hr & Hz).
  exists r. split; [exact Hr|].
  rewrite Hz, H0, H1, H2, H3, !bval_eqb. reflexivity.
Qed.

Lemma wrap32_small (n : Z) : 0 <= n <= UINT_MAX -> wrap32 n = n.
Proof. unfold wrap32, UINT_MAX. intros H. apply Z.mod_small. lia. Qed.

Lemma wrap32_idem (n : Z) : wrap32 (wrap32 n) = wrap32 n.
Proof. unfold wrap32. apply Z.mod_mod. lia. Qed.

Lemma wrap32_add_l (a b : Z) : wrap32 (wrap32 a + b) = wrap32 (a + b).
Proof. unfold wrap32. apply Zplus_mod_idemp_l. Qed.

Lemma wrap32_mul_l (a b : Z) : wrap32 (wrap32 a * b) = wrap32 (a * b).
Proof. unfold wrap32. apply Zmult_mod_idemp_l. Qed.

Lemma largest_nonneg (ds : list Z) : 0 <= largest ds.
Proof. induction ds as [|d ds IH]; simpl; lia. Qed.

(** The aggregate loop computes the scan of the region it starts in. *)
Lemma get_field_loop_spec (fuel : nat) :
  forall (data pre l : list byte) (thr m n : Z),
    data = pre ++ l ->
    Z.of_nat (length data) <= UINT_MAX ->
    (length l < fuel)%nat ->
    0 <= m -> wrap32 n = n ->
    get_field_loop fuel data (Z.of_nat (length data)) thr (Z.of_nat (length pre)) m n
    = Some ((Z.max m (largest (qualifying thr (sample_units l))),
             wrap32 (n + Z.of_nat (length (qualifying thr (sample_units l))))),
            map EvRead (scan_reads (Z.of_nat (length pre)) l)).
Proof.
  induction fuel as [|fuel IH]; intros data pre l thr m n Hd Hsz Hf Hm Hn; [lia|].
  assert (Hlen : Z.of_nat (length data) = Z.of_nat (length pre) + Z.of_nat (length l)).
  { rewrite Hd, length_app. lia. }
  cbn [get_field_loop].
  destruct l as [|b0 [|b1 [|b2 [|b3 rest]]]];
    try (replace (Z.of_nat (length pre) + 4 <=? Z.of_nat (length data)) with false
          by (symmetry; apply Z.leb_gt; cbn [length] in Hlen; lia);
         cbn [sample_units qualifying map filter largest fold_right length scan_reads];
         unfold ret; repeat f_equal;
         [lia | change (Z.of_nat 0) with 0; rewrite Z.add_0_r; auto]).
  replace (Z.of_nat (length pre) + 4 <=? Z.of_nat (length data)) with true
    by (symmetry; apply Z.leb_le; cbn [length] in Hlen; lia).
  destruct (memcmp_unit _ _ _ _ _ _ _ xff Hd) as (r & Hr & Hz).
  destruct (unit_fields _ _ _ _ _ _ _ Hd) as (_ & Hdepth).
  cbv zeta in Hr, Hz, Hdepth. unfold footer. rewrite Hr, bind_Some.
  cbn [sample_units scan_reads]. fold (is_footer b0 b1 b2 b3) in Hz. rewrite Hz.
  destruct (is_footer b0 b1 b2 b3); cbn [negb].
  - cbn [qualifying map filter largest fold_right length]. unfold ret.
    rewrite app_nil_r. repeat f_equal;
      [lia | change (Z.of_nat 0) with 0; rewrite Z.add_0_r; auto].
  - rewrite array_uint16_le_run, bind_Some, Hdepth.
    set (depth := le16 b2 b3).
    assert (Hpre : Z.of_nat (length (pre ++ [b0; b1; b2; b3])) = Z.of_nat (length pre) + 4).
    { rewrite length_app. cbn [length]. lia. }
    assert (Hw : wrap32 (Z.of_nat (length pre) + 4) = Z.of_nat (length (pre ++ [b0; b1; b2; b3]))).
    { rewrite Hpre. apply wrap32_small. cbn [length] in Hlen. lia. }
    assert (Hd' : data = (pre ++ [b0; b1; b2; b3]) ++ rest).
    { rewrite Hd, <- app_assoc. reflexivity. }
    assert (Hf' : (length rest < fuel)%nat) by (cbn [length] in Hf; lia).
    pose proof (le16_range b2 b3) as Hrange. fold depth in Hrange.
    unfold qualifying. cbn [map snd filter]. fold (qualifying thr (sample_units rest)).
    rewrite Z.geb_leb.
    destruct (thr <=? depth) eqn:Eq.
    + rewrite Hw.
      rewrite (IH data (pre ++ [b0; b1; b2; b3]) rest thr
                  (if depth >? m then depth else m) (wrap32 (n + 1)) Hd' Hsz Hf').
      * rewrite Hpre. cbn [length largest fold_right].
        fold (largest (qualifying thr (sample_units rest))).
        cbn [map app].
        replace (Z.of_nat (length pre) + 2 + 1) with (Z.of_nat (length pre) + 3) by lia.
        rewrite wrap32_add_l.
        replace (n + 1 + Z.of_nat (length (qualifying thr (sample_units rest))))
          with (n + Z.of_nat (S (length (qualifying thr (sample_units rest))))) by lia.
        replace (Z.max (if depth >? m then depth else m)
                       (largest (qualifying thr (sample_units rest))))
          with (Z.max m (Z.max depth (largest (qualifying thr (sample_units rest)))));
          [reflexivity|].
        destruct (depth >? m) eqn:Eg;
          [apply Z.gtb_lt in Eg | rewrite Z.gtb_ltb in Eg; apply Z.ltb_ge in Eg]; lia.
      * destruct (depth >? m); lia.
      * apply wrap32_idem.
    + rewrite Hw.
      rewrite (IH data (pre ++ [b0; b1; b2; b3]) rest thr m n Hd' Hsz Hf' Hm Hn).
      rewrite Hpre. cbn [map app].
      replace (Z.of_nat (length pre) + 2 + 1) with (Z.of_nat (length pre) + 3) by lia.
      reflexivity.
Qed.

(** ** The field query *)

Lemma get_field_short (p : reefnet_sensusultra_parser_t) (type : parser_field_type_t)
    (flags : Z) (value : option field_value) :
  size (base p) < 20 ->
  reefnet_sensusultra_parser_get_field p type flags value
  = Some ((DC_STATUS_DATAFORMAT, p, value), []).
Proof.
  intros H. unfold reefnet_sensusultra_parser_get_field.
  apply Z.ltb_lt in H. rewrite H. reflexivity.
Qed.

Lemma get_field_hit (p : reefnet_sensusultra_parser_t) (type : parser_field_type_t)
    (flags : Z) (value : option field_value) :
  20 <= size (base p) -> cached p <> 0 ->
  reefnet_sensusultra_parser_get_field p type flags value
  = Some (answer p type value, []).
Proof.
  intros H Hc. unfold reefnet_sensusultra_parser_get_field.
  apply Z.ltb_ge in H. rewrite H.
  apply Z.eqb_neq in Hc. rewrite Hc.
  destruct value as [v|]; [destruct type|]; reflexivity.
Qed.

Lemma get_field_miss (p : reefnet_sensusultra_parser_t) (type : parser_field_type_t)
    (flags : Z) (value : option field_value) :
  20 <= size (base p) <= UINT_MAX -> cached p = 0 ->
  reefnet_sensusultra_parser_get_field p type flags value
  = Some (answer (scanned p) type value, map EvRead (full_scan_reads (data (base p)))).
Proof.
  intros [H Hmax] Hc. unfold reefnet_sensusultra_parser_get_field.
  pose proof H as Hlt. apply Z.ltb_ge in Hlt. rewrite Hlt, Hc. cbn [Z.eqb].
  unfold size in *. set (d := data (base p)) in *.
  rewrite !array_uint16_le_run, !bind_Some.
  assert (Hd : d = firstn 16 d ++ skipn 16 d) by (symmetry; apply firstn_skipn).
  assert (H16 : Z.of_nat (length (firstn 16 d)) = 16) by (rewrite length_firstn; lia).
  pose proof (get_field_loop_spec (S (length d)) d (firstn 16 d) (skipn 16 d)
                (u16 d 10) 0 0 Hd Hmax) as Hloop.
  rewrite H16 in Hloop. rewrite Hloop; [|rewrite length_skipn; lia|lia|reflexivity].
  fold (scan_units d) (scan_threshold d) (scan_interval d).
  rewrite Z.max_r by apply largest_nonneg.
  cbn [bind ret app Z.add Pos.add Pos.succ]. rewrite wrap32_mul_l.
  fold (scan_divetime d) (scan_maxdepth d).
  unfold full_scan_reads.
  destruct value as [v|]; [destruct type|];
    unfold ret; rewrite !app_nil_r; reflexivity.
Qed.

Lemma is_byte_true (c b : byte) : is_byte c b = true <-> bval b = bval c.
Proof. rewrite <- bval_eqb. apply Z.eqb_eq. Qed.

Lemma is_footer_at (d pre rest : list byte) (b0 b1 b2 b3 : byte) :
  d = pre ++ b0 :: b1 :: b2 :: b3 :: rest ->
  is_footer b0 b1 b2 b3 = true <-> footer_at d (Z.of_nat (length pre)).
Proof.
  intros H. destruct (unit_bytes _ _ _ _ _ _ _ H) as (H0 & H1 & H2 & H3).
  unfold footer_at, is_footer. rewrite H0, H1, H2, H3, !andb_true_iff, !is_byte_true.
  change (bval xff) with 255. tauto.
Qed.

(** The units of a region are the 4-byte steps from its start: the k-th
    one lies within the buffer, is not the footer, and holds the
    temperature at its offset and the depth 2 bytes further. *)
Lemma sample_units_nth (k : nat) :
  forall (d pre l : list byte),
    d = pre ++ l ->
    (k < length (sample_units l))%nat ->
    let o := Z.of_nat (length pre) + 4 * Z.of_nat k in
    nth_error (sample_units l) k = Some (u16 d o, u16 d (o + 2))
    /\ o + 4 <= Z.of_nat (length d) /\ ~ footer_at d o.
Proof.
  induction k as [|k IH]; intros d pre l Hd Hk;
    destruct l as [|b0 [|b1 [|b2 [|b3 rest]]]]; try (cbn in Hk; lia);
    cbn [sample_units] in *;
    destruct (is_footer b0 b1 b2 b3) eqn:Ef; try (cbn in Hk; lia).
  - cbv zeta. rewrite Z.mul_0_r, Z.add_0_r.
    destruct (unit_fields _ _ _ _ _ _ _ Hd) as (Ht & Hdp).
    cbv zeta in Ht, Hdp. rewrite Ht, Hdp. repeat split.
    + rewrite Hd, length_app. cbn [length]. lia.
    + rewrite <- (is_footer_at _ _ _ _ _ _ _ Hd). congruence.
  - assert (Hd' : d = (pre ++ [b0; b1; b2; b3]) ++ rest)
      by (rewrite Hd, <- app_assoc; reflexivity).
    cbn [length] in Hk. apply PeanoNat.lt_S_n in Hk.
    specialize (IH d _ rest Hd' Hk). cbv zeta in IH.
    rewrite length_app in IH. cbn [length] in IH.
    cbv zeta.
    replace (Z.of_nat (length pre) + 4 * Z.of_nat (S k))
      with (Z.of_nat (length pre + 4) + 4 * Z.of_nat k) by lia.
    exact IH.
Qed.

(** The steps end where fewer than 4 bytes remain or the footer lies. *)
Lemma sample_units_stop (m : nat) :
  forall (d pre l : list byte),
    d = pre ++ l ->
    (length l <= m)%nat ->
    let o := Z.of_nat (length pre) + 4 * Z.of_nat (length (sample_units l)) in
    Z.of_nat (length d) < o + 4 \/ footer_at d o.
Proof.
  induction m as [|m IH]; intros d pre l Hd Hm;
    destruct l as [|b0 [|b1 [|b2 [|b3 rest]]]]; cbn [length] in Hm; try lia;
    try (left; rewrite Hd, length_app; cbn [sample_units length]; lia).
  cbn [sample_units]. destruct (is_footer b0 b1 b2 b3) eqn:Ef.
  - right. cbn [length]. rewrite Z.mul_0_r, Z.add_0_r.
    apply (is_footer_at _ _ _ _ _ _ _ Hd). exact Ef.
  - assert (Hd' : d = (pre ++ [b0; b1; b2; b3]) ++ rest)
      by (rewrite Hd, <- app_assoc; reflexivity).
    assert (Hm' : (length rest <= m)%nat) by lia.
    specialize (IH d _ rest Hd' Hm'). cbv zeta in IH.
    rewrite length_app in IH. cbn [length] in IH. cbn [length]. cbv zeta.
    replace (Z.of_nat (length pre) + 4 * Z.of_nat (S (length (sample_units rest))))
      with (Z.of_nat (length pre + 4) + 4 * Z.of_nat (length (sample_units rest))) by lia.
    exact IH.
Qed.

(** ** Installing a buffer *)

Lemma backend_set_data_ok (p : reefnet_sensusultra_parser_t) (d : list byte) (n : Z) :
  parser_is_reefnet_sensusultra (Some p) = true ->
  reefnet_sensusultra_parser_set_data (Some p) d n
  = (DC_STATUS_SUCCESS, Some (set_cache_fields p 0 0 0)).
Proof.
  intros H. unfold reefnet_sensusultra_parser_set_data. rewrite H. reflexivity.
Qed.

Lemma parser_set_data_ok (p0 : reefnet_sensusultra_parser_t) (d : list byte) :
  parser_is_reefnet_sensusultra (Some p0) = true ->
  parser_set_data (Some p0) d = (DC_STATUS_SUCCESS, Some (installed p0 d)).
Proof.
  intros H. unfold parser_set_data. rewrite backend_set_data_ok; [reflexivity|].
  exact H.
Qed.

(** ** The claims on the aggregate scan *)

(** C1, as the code has it. A buffer of at least 20 bytes is installed
    through [set_data] (its size fits the [unsigned int] that carries it). The first DIVETIME or
    MAXDEPTH query then answers from this scan: interval and threshold
    are the 2-byte little-endian fields at offsets 8 and 10; the units
    are the 4-byte steps from offset 16 (the k-th at 16 + 4k, inside the
    buffer and not the footer), ending where fewer than 4 bytes remain or
    the footer lies; the depth of a unit is the 2-byte little-endian
    field 2 bytes into it, and a unit qualifies when its depth is not
    below the threshold. DIVETIME is the count of qualifying units times
    the interval modulo 2^32, an [unsigned int] product (the integer
    product whenever that fits 32 bits); MAXDEPTH is the conversion
    (max_depth_raw * BAR / 1000 - atmospheric) / hydrostatic of the
    largest qualifying depth, 0 when no unit qualifies. *)
Theorem C1_first_query_scans
    (p0 : reefnet_sensusultra_parser_t) (d : list byte) (flags : Z) (v : field_value) :
  parser_is_reefnet_sensusultra (Some p0) = true ->
  20 <= Z.of_nat (length d) <= UINT_MAX ->
  exists p,
    parser_set_data (Some p0) d = (DC_STATUS_SUCCESS, Some p)
    /\ let interval := u16 d 8 in
       let threshold := u16 d 10 in
       let units := sample_units (skipn 16 d) in
       let depths := filter (fun depth => threshold <=? depth) (map snd units) in
       let count := Z.of_nat (length depths) in
       let max_depth_raw := fold_right Z.max 0 depths in
       let p' := set_cache_fields p 1 (wrap32 (count * interval)) max_depth_raw in
       (forall k, (k < length units)%nat ->
          let o := 16 + 4 * Z.of_nat k in
          nth_error units k = Some (u16 d o, u16 d (o + 2))
          /\ o + 4 <= Z.of_nat (length d) /\ ~ footer_at d o)
       /\ (let o := 16 + 4 * Z.of_nat (length units) in
           Z.of_nat (length d) < o + 4 \/ footer_at d o)
       /\ reefnet_sensusultra_parser_get_field p FIELD_TYPE_DIVETIME flags (Some v)
          = Some ((DC_STATUS_SUCCESS, p', Some (FV_uint (wrap32 (count * interval)))),
                  map EvRead (full_scan_reads d))
       /\ reefnet_sensusultra_parser_get_field p FIELD_TYPE_MAXDEPTH flags (Some v)
          = Some ((DC_STATUS_SUCCESS, p',
                   Some (FV_double ((double_of_uint max_depth_raw * BAR / 1000
                                     - atmospheric p0) / hydrostatic p0)%float)),
                  map EvRead (full_scan_reads d))
       /\ (count * interval <= UINT_MAX -> wrap32 (count * interval) = count * interval).
Proof.
  intros Hv Hlen. exists (installed p0 d). split; [apply parser_set_data_ok, Hv|].
  assert (Hd : d = firstn 16 d ++ skipn 16 d) by (symmetry; apply firstn_skipn).
  assert (H16 : Z.of_nat (length (firstn 16 d)) = 16) by (rewrite length_firstn; lia).
  cbv zeta. repeat split.
  - pose proof (sample_units_nth k d _ _ Hd H) as Hk. cbv zeta in Hk.
    rewrite H16 in Hk. apply Hk.
  - pose proof (sample_units_nth k d _ _ Hd H) as Hk. cbv zeta in Hk.
    rewrite H16 in Hk. apply Hk.
  - pose proof (sample_units_nth k d _ _ Hd H) as Hk. cbv zeta in Hk.
    rewrite H16 in Hk. apply Hk.
  - pose proof (sample_units_stop (length (skipn 16 d)) d _ _ Hd (le_n _)) as Hs.
    cbv zeta in Hs. rewrite H16 in Hs. exact Hs.
  - rewrite get_field_miss; [reflexivity | exact Hlen | reflexivity].
  - rewrite get_field_miss; [reflexivity | exact Hlen | reflexivity].
  - intros Hfit. apply wrap32_small. split; [|exact Hfit].
    apply Z.mul_nonneg_nonneg; [lia | apply u16_range].
Qed.

(** ** The clock re-basing *)

(** C3, as the code has it. With at least 8 bytes installed,
    [get_datetime] reads the 32-bit little-endian timestamp at bytes 4-7
    and converts the tick value systime - (devtime - timestamp), the
    inner difference being formed in [unsigned int], modulo 2^32; it is
    the integer difference whenever the timestamp does not exceed
    devtime. With devtime 1000, systime 50000 and a
    timestamp of 900 the tick value is 49900. *)
Theorem C3_datetime_rebased (p : reefnet_sensusultra_parser_t) :
  8 <= size (base p) ->
  let timestamp := u32 (data (base p)) 4 in
  let ticks := systime p - wrap32 (devtime p - timestamp) in
  reefnet_sensusultra_parser_get_datetime p
  = Some (datetime_of ticks, [EvRead 4; EvRead 5; EvRead 6; EvRead 7])
  /\ (timestamp <= devtime p <= UINT_MAX -> ticks = systime p - (devtime p - timestamp))
  /\ (devtime p = 1000 -> systime p = 50000 -> timestamp = 900 -> ticks = 49900).
Proof.
  intros H. cbv zeta. split; [|split].
  - unfold reefnet_sensusultra_parser_get_datetime, datetime_of.
    apply Z.ltb_ge in H. cbn [Z.add Pos.add]. rewrite H.
    rewrite array_uint32_le_run, bind_Some.
    destruct (dc_datetime_localtime _); reflexivity.
  - intros Hr. rewrite wrap32_small; [reflexivity|].
    assert (0 <= u32 (data (base p)) 4).
    { unfold u32, byte_at.
      rewrite !Z.shiftl_mul_pow2 by lia.
      pose proof (bval_range (nth (Z.to_nat 4) (data (base p)) x00)).
      pose proof (bval_range (nth (Z.to_nat (4 + 1)) (data (base p)) x00)).
      pose proof (bval_range (nth (Z.to_nat (4 + 2)) (data (base p)) x00)).
      pose proof (bval_range (nth (Z.to_nat (4 + 3)) (data (base p)) x00)).
      lia. }
    lia.
  - intros -> -> ->. reflexivity.
Qed.

(** ** Short buffers *)

(** C7. With fewer than 8 bytes installed [get_datetime] fails with
    DATAFORMAT, and with fewer than 20 bytes installed [get_field] fails
    with DATAFORMAT (for DIVETIME, MAXDEPTH and every other kind); either
    way no byte of the buffer is read, and [get_field] leaves the parser
    and the output storage as they were. *)
Theorem C7_short_buffer_dataformat (p : reefnet_sensusultra_parser_t) :
  (size (base p) < 8 ->
   reefnet_sensusultra_parser_get_datetime p
   = Some ((DC_STATUS_DATAFORMAT, None), []))
  /\ (size (base p) < 20 ->
      forall (type : parser_field_type_t) (flags : Z) (value : option field_value),
        reefnet_sensusultra_parser_get_field p type flags value
        = Some ((DC_STATUS_DATAFORMAT, p, value), [])).
Proof.
  split.
  - intros H. unfold reefnet_sensusultra_parser_get_datetime.
    apply Z.ltb_lt in H. cbn [Z.add Pos.add]. rewrite H. reflexivity.
  - intros H type flags value. apply get_field_short, H.
Qed.

(** ** The cache *)

Lemma answer_again (p : reefnet_sensusultra_parser_t) (type : parser_field_type_t)
    (value : option field_value) :
  answer (snd (fst (answer p type value))) type (snd (answer p type value))
  = answer p type value.
Proof. destruct value as [v|]; [destruct type|]; reflexivity. Qed.

Lemma answer_parser (p : reefnet_sensusultra_parser_t) (type : parser_field_type_t)
    (value : option field_value) :
  snd (fst (answer p type value)) = p.
Proof. destruct value as [v|]; [destruct type|]; reflexivity. Qed.

(** C8. Two consecutive [get_field] calls with the same arguments and no
    [set_data] in between return the same status and the same value and
    leave the same parser, and the second call reads no byte of the
    buffer; nor does any later query of any kind, so the scan runs at
    most once per installation. It holds for every field kind. *)
Theorem C8_second_query_cached
    (p : reefnet_sensusultra_parser_t) (type : parser_field_type_t)
    (flags : Z) (value : option field_value) :
  size (base p) <= UINT_MAX ->
  exists st p1 v1 t1,
    reefnet_sensusultra_parser_get_field p type flags value = Some ((st, p1, v1), t1)
    /\ reefnet_sensusultra_parser_get_field p1 type flags v1 = Some ((st, p1, v1), [])
    /\ forall type' flags' value', exists r,
         reefnet_sensusultra_parser_get_field p1 type' flags' value' = Some (r, [])
         /\ snd (fst r) = p1.
Proof.
  intros Hmax. destruct (Z.lt_ge_cases (size (base p)) 20) as [Hs|Hs].
  - exists DC_STATUS_DATAFORMAT, p, value, []. repeat split.
    + apply get_field_short, Hs.
    + apply get_field_short, Hs.
    + intros type' flags' value'. eexists. split; [apply get_field_short, Hs|reflexivity].
  - destruct (Z.eq_dec (cached p) 0) as [Hc|Hc].
    + destruct (answer (scanned p) type value) as [[st p1] v1] eqn:Ea.
      pose proof (answer_parser (scanned p) type value) as Hp.
      pose proof (answer_again (scanned p) type value) as Hag.
      rewrite Ea in Hp, Hag. cbn [fst snd] in Hp, Hag. subst p1.
      exists st, (scanned p), v1, (map EvRead (full_scan_reads (data (base p)))).
      repeat split.
      * rewrite get_field_miss by auto. rewrite Ea. reflexivity.
      * rewrite get_field_hit; [rewrite Hag; reflexivity | exact Hs | discriminate].
      * intros type' flags' value'. eexists. split.
        -- apply get_field_hit; [exact Hs | discriminate].
        -- apply answer_parser.
    + destruct (answer p type value) as [[st p1] v1] eqn:Ea.
      pose proof (answer_parser p type value) as Hp.
      pose proof (answer_again p type value) as Hag.
      rewrite Ea in Hp, Hag. cbn [fst snd] in Hp, Hag. subst p1.
      exists st, p, v1, []. repeat split.
      * rewrite get_field_hit by auto. rewrite Ea. reflexivity.
      * rewrite get_field_hit by auto. rewrite Hag. reflexivity.
      * intros type' flags' value'. eexists. split.
        -- apply get_field_hit; auto.
        -- apply answer_parser.
Qed.

Lemma set_calibration_ok (p : reefnet_sensusultra_parser_t) (a h : float) :
  parser_is_reefnet_sensusultra (Some p) = true ->
  reefnet_sensusultra_parser_set_calibration (Some p) a h
  = (DC_STATUS_SUCCESS, Some (set_calibration_fields p a h)).
Proof.
  intros H. unfold reefnet_sensusultra_parser_set_calibration. rewrite H. reflexivity.
Qed.

(** C10. A buffer is installed and scanned by a first MAXDEPTH query.
    [set_calibration] then succeeds and keeps the cache (valid flag,
    dive time, raw maximum depth) and the buffer; the next MAXDEPTH query
    returns (max_depth_raw * BAR / 1000 - a) / h for the new calibration
    and reads no byte of the buffer, and DIVETIME is the same before and
    after the calibration change. *)
Theorem C10_calibration_keeps_cache
    (p0 : reefnet_sensusultra_parser_t) (d : list byte) (a h : float)
    (flags : Z) (v : field_value) :
  parser_is_reefnet_sensusultra (Some p0) = true ->
  20 <= Z.of_nat (length d) <= UINT_MAX ->
  let p := installed p0 d in
  let raw := scan_maxdepth d in
  exists p1 p2,
    reefnet_sensusultra_parser_get_field p FIELD_TYPE_MAXDEPTH flags (Some v)
    = Some ((DC_STATUS_SUCCESS, p1,
             Some (FV_double ((double_of_uint raw * BAR / 1000 - atmospheric p0)
                              / hydrostatic p0)%float)),
            map EvRead (full_scan_reads d))
    /\ reefnet_sensusultra_parser_set_calibration (Some p1) a h
       = (DC_STATUS_SUCCESS, Some p2)
    /\ base p2 = base p1 /\ cached p2 = 1 /\ cached p1 = 1
    /\ divetime p2 = divetime p1 /\ maxdepth p2 = raw /\ maxdepth p1 = raw
    /\ reefnet_sensusultra_parser_get_field p2 FIELD_TYPE_MAXDEPTH flags (Some v)
       = Some ((DC_STATUS_SUCCESS, p2,
                Some (FV_double ((double_of_uint raw * BAR / 1000 - a) / h)%float)), [])
    /\ reefnet_sensusultra_parser_get_field p1 FIELD_TYPE_DIVETIME flags (Some v)
       = Some ((DC_STATUS_SUCCESS, p1, Some (FV_uint (scan_divetime d))), [])
    /\ reefnet_sensusultra_parser_get_field p2 FIELD_TYPE_DIVETIME flags (Some v)
       = Some ((DC_STATUS_SUCCESS, p2, Some (FV_uint (scan_divetime d))), []).
Proof.
  intros Hv Hlen p raw.
  exists (scanned p), (set_calibration_fields (scanned p) a h).
  split; [|split].
  - rewrite get_field_miss; [reflexivity | exact Hlen | reflexivity].
  - apply set_calibration_ok. exact Hv.
  - repeat split.
    + rewrite get_field_hit; [reflexivity | apply Hlen | discriminate].
    + rewrite get_field_hit; [reflexivity | apply Hlen | discriminate].
    + rewrite get_field_hit; [reflexivity | apply Hlen | discriminate].
Qed.

(** ** Reachable parser states *)

Lemma reachable_cache_inv (p : reefnet_sensusultra_parser_t) :
  reachable p -> cache_inv p.
Proof.
  induction 1 as [devtime systime p Hc
                 | p p' d Hr IH Hd Hs
                 | p p' a h Hr IH Hs
                 | p p' type flags value value' st t Hr IH Hg].
  - cbn in Hc. injection Hc as <-. unfold cache_inv, size. cbn.
    repeat split; try reflexivity; try (unfold UINT_MAX; lia).
  - destruct IH as (Hv & _ & _). rewrite parser_set_data_ok in Hs by exact Hv.
    injection Hs as <-. unfold cache_inv, size. cbn.
    repeat split; try assumption; try lia.
  - destruct IH as (Hv & Hm & Hi). rewrite set_calibration_ok in Hs by exact Hv.
    injection Hs as <-. unfold cache_inv. cbn. repeat split; try assumption; apply Hi; assumption.
  - destruct IH as (Hv & Hm & Hi).
    destruct (Z.lt_ge_cases (size (base p)) 20) as [Hs|Hs].
    + rewrite get_field_short in Hg by exact Hs. injection Hg as _ <- _ _.
      repeat split; try assumption; apply Hi; assumption.
    + destruct (Z.eq_dec (cached p) 0) as [Hc|Hc].
      * rewrite get_field_miss in Hg by auto.
        injection Hg as Ha _. pose proof (answer_parser (scanned p) type value) as Hp.
        rewrite Ha in Hp. cbn [fst snd] in Hp. subst p'.
        unfold cache_inv. cbn. repeat split; assumption.
      * rewrite get_field_hit in Hg by auto.
        injection Hg as Ha _. pose proof (answer_parser p type value) as Hp.
        rewrite Ha in Hp. cbn [fst snd] in Hp. subst p'.
        repeat split; try assumption; apply Hi; assumption.
Qed.

(** C4. [set_data] on a valid handle succeeds and clears the valid flag:
    the backend function does, and so does the public entry that installs
    the buffer. Whatever the cache held before, the first DIVETIME or
    MAXDEPTH query after an installation answers from the scan of the new
    buffer. In every reachable state a valid cache holds the dive time
    and the raw maximum depth of a full scan of the installed buffer. *)
Theorem C4_set_data_invalidates :
  (forall (p : reefnet_sensusultra_parser_t) (d : list byte) (n : Z),
      parser_is_reefnet_sensusultra (Some p) = true ->
      exists p',
        reefnet_sensusultra_parser_set_data (Some p) d n = (DC_STATUS_SUCCESS, Some p')
        /\ cached p' = 0 /\ base p' = base p)
  /\ (forall (p0 : reefnet_sensusultra_parser_t) (d : list byte) (flags : Z) (v : field_value),
         parser_is_reefnet_sensusultra (Some p0) = true ->
         Z.of_nat (length d) <= UINT_MAX ->
         exists p,
           parser_set_data (Some p0) d = (DC_STATUS_SUCCESS, Some p)
           /\ cached p = 0 /\ data (base p) = d
           /\ (20 <= Z.of_nat (length d) ->
               reefnet_sensusultra_parser_get_field p FIELD_TYPE_DIVETIME flags (Some v)
               = Some ((DC_STATUS_SUCCESS, scanned p, Some (FV_uint (scan_divetime d))),
                       map EvRead (full_scan_reads d))
               /\ reefnet_sensusultra_parser_get_field p FIELD_TYPE_MAXDEPTH flags (Some v)
                  = Some ((DC_STATUS_SUCCESS, scanned p,
                           Some (FV_double (depth_of (scan_maxdepth d)
                                                     (atmospheric p0) (hydrostatic p0)))),
                          map EvRead (full_scan_reads d))))
  /\ (forall p : reefnet_sensusultra_parser_t,
         reachable p ->
         cached p <> 0 ->
         20 <= size (base p)
         /\ divetime p = scan_divetime (data (base p))
         /\ maxdepth p = scan_maxdepth (data (base p))).
Proof.
  split; [|split].
  - intros p d n Hv. eexists. split; [apply backend_set_data_ok, Hv|]. split; reflexivity.
  - intros p0 d flags v Hv Hmax. exists (installed p0 d).
    split; [apply parser_set_data_ok, Hv|]. split; [reflexivity|]. split; [reflexivity|].
    intros Hmin. split; (rewrite get_field_miss; [reflexivity | split; assumption | reflexivity]).
  - intros p Hr Hc. apply (reachable_cache_inv p Hr). exact Hc.
Qed.

Lemma full_scan_reads_head (d : list byte) :
  20 <= Z.of_nat (length d) ->
  exists more, full_scan_reads d = [8; 9; 10; 11; 16; 17; 18; 19] ++ more.
Proof.
  intros H. unfold full_scan_reads.
  assert (Hl : (4 <= length (skipn 16 d))%nat) by (rewrite length_skipn; lia).
  destruct (skipn 16 d) as [|b0 [|b1 [|b2 [|b3 rest]]]]; cbn [length] in Hl; try lia.
  cbn [scan_reads]. eexists. cbn [Z.add Pos.add Pos.succ app]. reflexivity.
Qed.

(** C5, as the code has it. With at least 20 bytes installed and a
    non-NULL output, a GASMIX_COUNT query succeeds and returns 0 whatever
    the buffer holds. On a valid cache it reads no byte of the buffer.
    On an invalid cache it runs the aggregate scan all the same: it reads
    interval and threshold, then the sample region from offset 16 on, and
    leaves the cache valid. *)
Theorem C5_gasmix_count_zero
    (p : reefnet_sensusultra_parser_t) (flags : Z) (v : field_value) :
  20 <= size (base p) <= UINT_MAX ->
  (cached p <> 0 ->
   reefnet_sensusultra_parser_get_field p FIELD_TYPE_GASMIX_COUNT flags (Some v)
   = Some ((DC_STATUS_SUCCESS, p, Some (FV_uint 0)), []))
  /\ (cached p = 0 ->
      exists more,
        reefnet_sensusultra_parser_get_field p FIELD_TYPE_GASMIX_COUNT flags (Some v)
        = Some ((DC_STATUS_SUCCESS, scanned p, Some (FV_uint 0)),
                map EvRead ([8; 9; 10; 11; 16; 17; 18; 19] ++ more))).
Proof.
  intros Hlen. split; intros Hc.
  - rewrite get_field_hit; [reflexivity | apply Hlen | exact Hc].
  - destruct (full_scan_reads_head (data (base p)) (proj1 Hlen)) as [more Hm].
    exists more. rewrite get_field_miss by assumption. rewrite Hm. reflexivity.
Qed.

(** C6, as the code has it. With at least 20 bytes installed, a query
    for a kind other than DIVETIME, MAXDEPTH and GASMIX_COUNT fails with
    UNSUPPORTED when the output pointer is not NULL, and leaves the
    output storage untouched; with a NULL output pointer the same query
    succeeds. Either way the parser ends in the same state. *)
Theorem C6_other_kind_unsupported
    (p : reefnet_sensusultra_parser_t) (code flags : Z) (v : field_value) :
  20 <= size (base p) <= UINT_MAX ->
  exists p' t,
    reefnet_sensusultra_parser_get_field p (FIELD_TYPE_OTHER code) flags (Some v)
    = Some ((DC_STATUS_UNSUPPORTED, p', Some v), t)
    /\ reefnet_sensusultra_parser_get_field p (FIELD_TYPE_OTHER code) flags None
       = Some ((DC_STATUS_SUCCESS, p', None), t).
Proof.
  intros Hlen. destruct (Z.eq_dec (cached p) 0) as [Hc|Hc].
  - exists (scanned p), (map EvRead (full_scan_reads (data (base p)))).
    split; rewrite get_field_miss by assumption; reflexivity.
  - exists p, []. split; (rewrite get_field_hit; [reflexivity | apply Hlen | exact Hc]).
Qed.

(** ** The sample scanner *)

(** The sample loop emits the callbacks of the units of its region. *)
Lemma samples_loop_spec (p : reefnet_sensusultra_parser_t) (callback : bool)
    (interval : Z) (fuel : nat) :
  forall (d pre l : list byte) (k : nat),
    d = pre ++ l ->
    Z.of_nat (length d) <= UINT_MAX ->
    (length l < fuel)%nat ->
    yields d
      (samples_loop fuel p callback d (Z.of_nat (length d)) interval
                    (Z.of_nat (length pre)) (wrap32 (Z.of_nat k * interval)))
      tt
      (if callback then record_callbacks p interval k (sample_units l) else []).
Proof.
  unfold yields.
  induction fuel as [|fuel IH]; intros d pre l k Hd Hsz Hf; [lia|].
  assert (Hlen : Z.of_nat (length d) = Z.of_nat (length pre) + Z.of_nat (length l)).
  { rewrite Hd, length_app. lia. }
  cbn [samples_loop].
  destruct l as [|b0 [|b1 [|b2 [|b3 rest]]]];
    try (replace (Z.of_nat (length pre) + 4 <=? Z.of_nat (length d)) with false
          by (symmetry; apply Z.leb_gt; cbn [length] in Hlen; lia);
         exists []; split; [reflexivity|];
         split; [destruct callback; reflexivity | constructor]).
  replace (Z.of_nat (length pre) + 4 <=? Z.of_nat (length d)) with true
    by (symmetry; apply Z.leb_le; cbn [length] in Hlen; lia).
  destruct (memcmp_unit _ _ _ _ _ _ _ xff Hd) as (r & Hr & Hz).
  destruct (unit_fields _ _ _ _ _ _ _ Hd) as (Htemp & Hdepth).
  cbv zeta in Hr, Hz, Htemp, Hdepth. unfold footer. rewrite Hr, bind_Some.
  cbn [sample_units]. fold (is_footer b0 b1 b2 b3) in Hz. rewrite Hz.
  cbn [length] in Hlen.
  destruct (is_footer b0 b1 b2 b3); cbn [negb].
  - eexists. split; [reflexivity|]. split; [destruct callback; reflexivity|].
    cbn [reads flat_map app]. repeat constructor; lia.
  - assert (Hpre : Z.of_nat (length (pre ++ [b0; b1; b2; b3])) = Z.of_nat (length pre) + 4).
    { rewrite length_app. cbn [length]. lia. }
    assert (Hw : wrap32 (Z.of_nat (length pre) + 4) = Z.of_nat (length (pre ++ [b0; b1; b2; b3]))).
    { rewrite Hpre. apply wrap32_small. lia. }
    assert (Hd' : d = (pre ++ [b0; b1; b2; b3]) ++ rest).
    { rewrite Hd, <- app_assoc. reflexivity. }
    assert (Hf' : (length rest < fuel)%nat) by (cbn [length] in Hf; lia).
    assert (Ht : wrap32 (wrap32 (Z.of_nat k * interval) + interval)
                 = wrap32 (Z.of_nat (S k) * interval)).
    { rewrite wrap32_add_l. f_equal. lia. }
    destruct (IH d _ rest (S k) Hd' Hsz Hf') as (t' & Hrun & Hcb & Hin).
    rewrite !array_uint16_le_run, Htemp, Hdepth, Hw, Ht, Hrun.
    destruct callback; cbn [invoke emit ret bind app];
      (eexists; split; [reflexivity|]);
      (split;
       [ unfold callbacks; cbn [flat_map app]; fold (callbacks t'); rewrite Hcb; reflexivity
       | unfold reads; cbn [flat_map app]; fold (reads t');
         repeat (apply Forall_cons; [unfold in_bounds; lia|]); exact Hin ]).
Qed.

Lemma find_header_unit (b0 b1 b2 b3 : byte) (rest : list byte) :
  find_header (b0 :: b1 :: b2 :: b3 :: rest)
  = if is_header b0 b1 b2 b3 then Some O
    else option_map S (find_header (b1 :: b2 :: b3 :: rest)).
Proof. reflexivity. Qed.

(** The header loop stops at the first zero sentinel of its region. *)
Lemma header_loop_spec (p : reefnet_sensusultra_parser_t) (callback : bool) (fuel : nat) :
  forall (d pre l : list byte),
    d = pre ++ l ->
    Z.of_nat (length d) <= UINT_MAX ->
    (length l < fuel)%nat ->
    let run := header_loop fuel p callback d (Z.of_nat (length d)) (Z.of_nat (length pre)) in
    match find_header l with
    | None => yields d run DC_STATUS_SUCCESS []
    | Some k =>
        let h := Z.of_nat (length pre) + Z.of_nat k in
        (h + 16 <= Z.of_nat (length d) ->
         yields d run DC_STATUS_SUCCESS
           (if callback
            then record_callbacks p (u16 d (h + 8)) 0
                                  (sample_units (skipn (Z.to_nat (h + 16)) d))
            else []))
        /\ (Z.of_nat (length d) < h + 16 <= UINT_MAX ->
            yields d run DC_STATUS_DATAFORMAT [])
    end.
Proof.
  unfold yields.
  induction fuel as [|fuel IH]; intros d pre l Hd Hsz Hf; [lia|].
  assert (Hlen : Z.of_nat (length d) = Z.of_nat (length pre) + Z.of_nat (length l)).
  { rewrite Hd, length_app. lia. }
  cbv zeta. cbn [header_loop].
  destruct l as [|b0 [|b1 [|b2 [|b3 rest]]]];
    try (replace (Z.of_nat (length pre) + 4 <=? Z.of_nat (length d)) with false
          by (symmetry; apply Z.leb_gt; cbn [length] in Hlen; lia);
         cbn [find_header]; exists []; split; [reflexivity|]; split;
         [reflexivity | constructor]).
  replace (Z.of_nat (length pre) + 4 <=? Z.of_nat (length d)) with true
    by (symmetry; apply Z.leb_le; cbn [length] in Hlen; lia).
  destruct (memcmp_unit _ _ _ _ _ _ _ x00 Hd) as (r & Hr & Hz).
  cbv zeta in Hr, Hz. unfold header. rewrite Hr, bind_Some.
  rewrite find_header_unit. fold (is_header b0 b1 b2 b3) in Hz. rewrite Hz.
  cbn [length] in Hlen.
  destruct (is_header b0 b1 b2 b3).
  - change (Z.of_nat 0) with 0. rewrite Z.add_0_r. split.
    + intros H16.
      rewrite wrap32_small by lia.
      replace (Z.of_nat (length pre) + 16 >? Z.of_nat (length d)) with false
        by (symmetry; rewrite Z.gtb_ltb; apply Z.ltb_ge; lia).
      rewrite array_uint16_le_run, bind_Some.
      set (n := Z.to_nat (Z.of_nat (length pre) + 16)).
      assert (Hd' : d = firstn n d ++ skipn n d) by (symmetry; apply firstn_skipn).
      assert (Hn : Z.of_nat (length (firstn n d)) = Z.of_nat (length pre) + 16)
        by (rewrite length_firstn; lia).
      destruct (samples_loop_spec p callback (u16 d (Z.of_nat (length pre) + 8))
                  (S (length d)) d _ _ 0%nat Hd' Hsz) as (t' & Hrun & Hcb & Hin).
      { rewrite length_skipn. lia. }
      rewrite Hn in Hrun. change (Z.of_nat 0 * _) with 0 in Hrun.
      change (wrap32 0) with 0 in Hrun. rewrite Hrun.
      cbn [bind ret app]. rewrite app_nil_r.
      eexists. split; [reflexivity|]. split.
      * unfold callbacks. cbn [flat_map app]. exact Hcb.
      * unfold reads. cbn [flat_map app]. fold (reads t').
        repeat (apply Forall_cons; [unfold in_bounds; lia|]). exact Hin.
    + intros [Hshort Hfit].
      rewrite wrap32_small by lia.
      replace (Z.of_nat (length pre) + 16 >? Z.of_nat (length d)) with true
        by (symmetry; apply Z.gtb_lt; lia).
      eexists. split; [reflexivity|]. split; [reflexivity|].
      cbn [reads flat_map app]. repeat constructor; lia.
  - assert (Hpre : Z.of_nat (length (pre ++ [b0])) = Z.of_nat (length pre) + 1).
    { rewrite length_app. cbn [length]. lia. }
    assert (Hw : wrap32 (Z.of_nat (length pre) + 1) = Z.of_nat (length (pre ++ [b0]))).
    { rewrite Hpre. apply wrap32_small. lia. }
    assert (Hd' : d = (pre ++ [b0]) ++ b1 :: b2 :: b3 :: rest).
    { rewrite Hd, <- app_assoc. reflexivity. }
    assert (Hf' : (length (b1 :: b2 :: b3 :: rest) < fuel)%nat) by (cbn [length] in *; lia).
    pose proof (IH d _ _ Hd' Hsz Hf') as Hrec. cbv zeta in Hrec. rewrite Hpre in Hrec.
    rewrite Hw, Hpre.
    destruct (find_header (b1 :: b2 :: b3 :: rest)) as [k|]; cbn [option_map].
    + replace (Z.of_nat (length pre) + Z.of_nat (S k))
        with (Z.of_nat (length pre) + 1 + Z.of_nat k) by lia.
      destruct Hrec as [Hok Hbad]. split; intros Hcase.
      * destruct (Hok Hcase) as (t' & Hrun & Hcb & Hin). rewrite Hrun.
        eexists. split; [reflexivity|]. split; [exact Hcb|].
        unfold reads; cbn [flat_map app]; fold (reads t').
        repeat (apply Forall_cons; [unfold in_bounds; lia|]). exact Hin.
      * destruct (Hbad Hcase) as (t' & Hrun & Hcb & Hin). rewrite Hrun.
        eexists. split; [reflexivity|]. split; [exact Hcb|].
        unfold reads; cbn [flat_map app]; fold (reads t').
        repeat (apply Forall_cons; [unfold in_bounds; lia|]). exact Hin.
    + destruct Hrec as (t' & Hrun & Hcb & Hin). rewrite Hrun.
      eexists. split; [reflexivity|]. split; [exact Hcb|].
      unfold reads; cbn [flat_map app]; fold (reads t').
      repeat (apply Forall_cons; [unfold in_bounds; lia|]). exact Hin.
Qed.

Lemma samples_foreach_run (p : reefnet_sensusultra_parser_t) (callback : bool) :
  parser_is_reefnet_sensusultra (Some p) = true ->
  size (base p) <= UINT_MAX ->
  let d := data (base p) in
  let run := reefnet_sensusultra_parser_samples_foreach (Some p) callback in
  match find_header d with
  | None => yields d run DC_STATUS_SUCCESS []
  | Some k =>
      let h := Z.of_nat k in
      (h + 16 <= size (base p) ->
       yields d run DC_STATUS_SUCCESS
         (if callback
          then record_callbacks p (u16 d (h + 8)) 0
                                (sample_units (skipn (Z.to_nat (h + 16)) d))
          else []))
      /\ (size (base p) < h + 16 <= UINT_MAX ->
          yields d run DC_STATUS_DATAFORMAT [])
  end.
Proof.
  intros Hv Hmax d. unfold reefnet_sensusultra_parser_samples_foreach.
  rewrite Hv. cbn [negb]. unfold size in *. fold d in Hmax |- *.
  pose proof (header_loop_spec p callback (S (length d)) d [] d eq_refl Hmax
                (Nat.lt_succ_diag_r _)) as H.
  exact H.
Qed.

Lemma find_header_bound (l : list byte) :
  forall k, find_header l = Some k -> (k + 4 <= length l)%nat.
Proof.
  induction l as [|b0 t IH]; intros k H; [discriminate|].
  destruct t as [|b1 [|b2 [|b3 rest]]]; try discriminate.
  rewrite find_header_unit in H. destruct (is_header b0 b1 b2 b3).
  - injection H as <-. cbn [length]. lia.
  - destruct (find_header (b1 :: b2 :: b3 :: rest)) as [k'|]; [|discriminate].
    injection H as <-. specialize (IH k' eq_refl). cbn [length] in *. lia.
Qed.


(** The units of a region end at a footer on a unit boundary, whatever
    follows it. *)
Lemma sample_units_footer (n : nat) :
  forall (region rest : list byte),
    length region = (4 * n)%nat ->
    sample_units (region ++ footer ++ rest) = sample_units region.
Proof.
  induction n as [|n IH]; intros region rest H.
  - destruct region; [reflexivity | cbn [length] in H; lia].
  - destruct region as [|b0 [|b1 [|b2 [|b3 r]]]]; cbn [length] in H; try lia.
    change ((b0 :: b1 :: b2 :: b3 :: r) ++ footer ++ rest)
      with (b0 :: b1 :: b2 :: b3 :: (r ++ footer ++ rest)).
    cbn [sample_units]. rewrite IH by lia. reflexivity.
Qed.

Lemma byte_at_app_l (l x : list byte) (i : Z) :
  0 <= i < Z.of_nat (length l) -> byte_at (l ++ x) i = byte_at l i.
Proof.
  intros H. unfold byte_at. rewrite app_nth1 by lia. reflexivity.
Qed.

Lemma u16_app_l (l x : list byte) (i : Z) :
  0 <= i -> i + 1 < Z.of_nat (length l) -> u16 (l ++ x) i = u16 l i.
Proof.
  intros H0 H1. unfold u16. rewrite !byte_at_app_l by lia. reflexivity.
Qed.

Lemma record_callbacks_length (p : reefnet_sensusultra_parser_t) (interval : Z)
    (us : list (Z * Z)) :
  forall k, length (record_callbacks p interval k us) = (3 * length us)%nat.
Proof.
  induction us as [|u us IH]; intros k; [reflexivity|].
  cbn [record_callbacks sample_callbacks app length]. rewrite IH. lia.
Qed.

Lemma record_callbacks_nth (p : reefnet_sensusultra_parser_t) (interval : Z)
    (us : list (Z * Z)) :
  forall (k i : nat) (u : Z * Z),
    nth_error us i = Some u ->
    firstn 3 (skipn (3 * i) (record_callbacks p interval k us))
    = sample_callbacks p interval (k + i) u.
Proof.
  induction us as [|u0 us IH]; intros k i u H; [destruct i; discriminate|].
  destruct i as [|i].
  - injection H as <-. rewrite Nat.add_0_r. reflexivity.
  - cbn [nth_error] in H.
    replace (3 * S i)%nat with (S (S (S (3 * i)))) by lia.
    cbn [record_callbacks sample_callbacks app skipn].
    rewrite (IH (S k) i u H). f_equal. lia.
Qed.

(** ** Reads stay within the buffer *)

Lemma reads_map_EvRead (l : list Z) : reads (map EvRead l) = l.
Proof. induction l as [|o l IH]; [reflexivity|]. cbn. f_equal. exact IH. Qed.

Lemma scan_reads_in_bounds (m : nat) :
  forall (d pre l : list byte),
    d = pre ++ l ->
    (length l <= m)%nat ->
    Forall (in_bounds d) (scan_reads (Z.of_nat (length pre)) l).
Proof.
  induction m as [|m IH]; intros d pre l Hd Hm;
    destruct l as [|b0 [|b1 [|b2 [|b3 rest]]]]; cbn [length] in Hm; try lia;
    try (cbn [scan_reads]; apply Forall_nil).
  assert (Hlen : Z.of_nat (length d) = Z.of_nat (length pre) + Z.of_nat (4 + length rest)).
  { rewrite Hd, length_app. cbn [length]. lia. }
  cbn [scan_reads app].
  repeat (apply Forall_cons; [unfold in_bounds; lia|]).
  destruct (is_footer b0 b1 b2 b3); [apply Forall_nil|]. cbn [app].
  repeat (apply Forall_cons; [unfold in_bounds; lia|]).
  assert (Hd' : d = (pre ++ [b0; b1; b2; b3]) ++ rest)
    by (rewrite Hd, <- app_assoc; reflexivity).
  assert (Hm' : (length rest <= m)%nat) by lia.
  pose proof (IH d _ rest Hd' Hm') as H.
  rewrite length_app in H. cbn [length] in H.
  replace (Z.of_nat (length pre + 4)) with (Z.of_nat (length pre) + 4) in H by lia.
  exact H.
Qed.

(** X8. Every query terminates, and none reads outside the installed
    buffer: the default byte of [byte_at] is never observed. For
    [samples_foreach] the buffer is at most UINT_MAX - 12 bytes long, so
    that the 32-bit sum offset + 16 does not wrap. *)
Theorem reads_in_bounds (p : reefnet_sensusultra_parser_t) :
  let d := data (base p) in
  size (base p) <= UINT_MAX ->
  (forall type flags value, exists r t,
      reefnet_sensusultra_parser_get_field p type flags value = Some (r, t)
      /\ Forall (in_bounds d) (reads t))
  /\ (exists r t,
         reefnet_sensusultra_parser_get_datetime p = Some (r, t)
         /\ Forall (in_bounds d) (reads t))
  /\ (parser_is_reefnet_sensusultra (Some p) = true ->
      size (base p) + 12 <= UINT_MAX ->
      forall callback, exists r t,
        reefnet_sensusultra_parser_samples_foreach (Some p) callback = Some (r, t)
        /\ Forall (in_bounds d) (reads t)).
Proof.
  intros d Hmax. split; [|split].
  - intros type flags value.
    destruct (Z.lt_ge_cases (size (base p)) 20) as [Hs|Hs].
    + rewrite get_field_short by exact Hs. eexists. eexists. split; [reflexivity|constructor].
    + destruct (Z.eq_dec (cached p) 0) as [Hc|Hc].
      * rewrite get_field_miss by auto. eexists. eexists. split; [reflexivity|].
        rewrite reads_map_EvRead. unfold full_scan_reads. fold d.
        unfold size in Hs. fold d in Hs.
        apply Forall_app. split; [repeat constructor; unfold in_bounds; lia|].
        assert (Hd : d = firstn 16 d ++ skipn 16 d) by (symmetry; apply firstn_skipn).
        pose proof (scan_reads_in_bounds (length (skipn 16 d)) d _ _ Hd (le_n _)) as H.
        rewrite length_firstn in H.
        replace (Z.of_nat (Nat.min 16 (length d))) with 16 in H by lia.
        exact H.
      * rewrite get_field_hit by auto. eexists. eexists. split; [reflexivity|constructor].
  - unfold reefnet_sensusultra_parser_get_datetime. cbn [Z.add Pos.add].
    destruct (size (base p) <? 8) eqn:E.
    + eexists. eexists. split; [reflexivity|constructor].
    + apply Z.ltb_ge in E. unfold size in E. fold d in E.
      rewrite array_uint32_le_run, bind_Some.
      destruct (dc_datetime_localtime _); eexists; eexists;
        (split; [reflexivity|]); cbn [reads flat_map app];
        repeat constructor; unfold in_bounds; lia.
  - intros Hv Hroom callback.
    pose proof (samples_foreach_run p callback Hv Hmax) as Hrun.
    cbv zeta in Hrun. fold d in Hrun.
    destruct (find_header d) as [k|] eqn:Ek.
    + pose proof (find_header_bound d k Ek) as Hb.
      destruct (Z.le_gt_cases (Z.of_nat k + 16) (size (base p))) as [Hlong|Hshort].
      * destruct (proj1 Hrun Hlong) as (t & Ht & _ & Hin). eauto.
      * assert (Hcase : size (base p) < Z.of_nat k + 16 <= UINT_MAX).
        { unfold size in *. fold d in Hroom, Hshort |- *. lia. }
        destruct (proj2 Hrun Hcase) as (t & Ht & _ & Hin). eauto.
    + destruct Hrun as (t & Ht & _ & Hin). eauto.
Qed.


(** C2, as the code has it. [samples_foreach] is called with a callback
    on a buffer whose first zero sentinel lies at offset k, with at least
    16 bytes from there. It succeeds and the callbacks are, unit by unit
    from offset k + 16, TIME then TEMPERATURE then DEPTH: the i-th unit
    holds the raw temperature at k + 16 + 4i and the raw depth 2 bytes
    further, the temperature emitted is raw / 100 - 273.15 and the depth
    (raw * BAR / 1000 - atmospheric) / hydrostatic. With interval the
    2-byte little-endian field at k + 8, the first time is interval and
    each later time is the one before plus interval in [unsigned int];
    while the running total fits 32 bits the step is exactly interval,
    and the times increase strictly when interval is not 0. *)
Theorem C2_sample_callbacks (p : reefnet_sensusultra_parser_t) (k : nat) :
  parser_is_reefnet_sensusultra (Some p) = true ->
  size (base p) <= UINT_MAX ->
  let d := data (base p) in
  find_header d = Some k ->
  Z.of_nat k + 16 <= size (base p) ->
  let interval := u16 d (Z.of_nat k + 8) in
  let units := sample_units (skipn (k + 16) d) in
  exists t,
    reefnet_sensusultra_parser_samples_foreach (Some p) true
    = Some (DC_STATUS_SUCCESS, t)
    /\ length (callbacks t) = (3 * length units)%nat
    /\ (forall i, (i < length units)%nat ->
          let o := Z.of_nat k + 16 + 4 * Z.of_nat i in
          firstn 3 (skipn (3 * i) (callbacks t))
          = [ (SAMPLE_TYPE_TIME, sample_time (sample_time_of interval i));
              (SAMPLE_TYPE_TEMPERATURE,
               sample_temperature (double_of_uint (u16 d o) / 100 - 273.15)%float);
              (SAMPLE_TYPE_DEPTH,
               sample_depth ((double_of_uint (u16 d (o + 2)) * BAR / 1000
                              - atmospheric p) / hydrostatic p)%float) ])
    /\ sample_time_of interval 0 = interval
    /\ (forall i, sample_time_of interval (S i)
                  = wrap32 (sample_time_of interval i + interval))
    /\ (Z.of_nat (length units) * interval <= UINT_MAX ->
        forall i, (S i < length units)%nat ->
          sample_time_of interval (S i) = sample_time_of interval i + interval
          /\ (0 < interval -> sample_time_of interval i < sample_time_of interval (S i))).
Proof.
  intros Hv Hmax d Hk Hlong interval units.
  pose proof (samples_foreach_run p true Hv Hmax) as Hrun.
  cbv zeta in Hrun. fold d in Hrun. rewrite Hk in Hrun.
  destruct (proj1 Hrun Hlong) as (t & Ht & Hcb & _).
  replace (Z.to_nat (Z.of_nat k + 16)) with (k + 16)%nat in Hcb by lia.
  fold interval units in Hcb.
  pose proof (u16_range d (Z.of_nat k + 8)) as Hi. fold interval in Hi.
  exists t. split; [exact Ht|]. split; [|split; [|split; [|split]]].
  - rewrite Hcb. apply record_callbacks_length.
  - intros i Hlt o.
    assert (Hd : d = firstn (k + 16) d ++ skipn (k + 16) d)
      by (symmetry; apply firstn_skipn).
    destruct (sample_units_nth i d _ _ Hd Hlt) as (Hn & _ & _).
    rewrite length_firstn in Hn. unfold size in Hlong. fold d in Hlong.
    replace (Z.of_nat (Nat.min (k + 16) (length d)) + 4 * Z.of_nat i) with o in Hn
      by (subst o; lia).
    fold units in Hn. rewrite Hcb, (record_callbacks_nth p interval units 0 i _ Hn).
    reflexivity.
  - unfold sample_time_of. rewrite wrap32_small; unfold UINT_MAX; lia.
  - intros i. unfold sample_time_of. rewrite wrap32_add_l. f_equal. lia.
  - intros Hfit i Hlt.
    assert (Hs : forall j, (j < length units)%nat ->
                 sample_time_of interval j = Z.of_nat (S j) * interval).
    { intros j Hj. unfold sample_time_of. apply wrap32_small. nia. }
    rewrite (Hs (S i)) by lia. rewrite (Hs i) by lia. split; nia.
Qed.

(** ** Further properties: handles and life cycle *)

Lemma invalid_handle (abstract : option reefnet_sensusultra_parser_t) :
  parser_is_reefnet_sensusultra abstract = false
  <-> abstract = None
      \/ exists p, abstract = Some p
                   /\ backend (base p) <> reefnet_sensusultra_parser_backend.
Proof.
  destruct abstract as [p|]; cbn.
  - destruct (backend (base p)) as [|f] eqn:E; cbn; split.
    + discriminate.
    + intros [H|(q & Hq & H)]; [discriminate|].
      injection Hq as <-. congruence.
    + intros _. right. exists p. split; [reflexivity | congruence].
    + reflexivity.
  - split; [intros _; left; reflexivity | reflexivity].
Qed.

(** X1. [create] checks the output slot before it allocates: a NULL slot
    gives INVALIDARGS whether or not memory is available, a failed
    allocation NOMEMORY. A created parser, once a buffer of at least 20
    bytes is installed, converts the maximum depth with the default
    calibration ATM and 1025 * GRAVITY, and re-bases the timestamp with
    the clock pair given to [create]. *)
Theorem X1_create_then_query
    (devtime systime : Z) (d : list byte) (flags : Z) (v : field_value) :
  20 <= Z.of_nat (length d) <= UINT_MAX ->
  (forall malloc,
      reefnet_sensusultra_parser_create false malloc devtime systime
      = (DC_STATUS_INVALIDARGS, None))
  /\ reefnet_sensusultra_parser_create true false devtime systime
     = (DC_STATUS_NOMEMORY, None)
  /\ exists p0 p,
       reefnet_sensusultra_parser_create true true devtime systime
       = (DC_STATUS_SUCCESS, Some p0)
       /\ parser_is_reefnet_sensusultra (Some p0) = true
       /\ parser_set_data (Some p0) d = (DC_STATUS_SUCCESS, Some p)
       /\ reefnet_sensusultra_parser_get_field p FIELD_TYPE_MAXDEPTH flags (Some v)
          = Some ((DC_STATUS_SUCCESS, scanned p,
                   Some (FV_double ((double_of_uint (scan_maxdepth d) * BAR / 1000 - ATM)
                                    / (1025 * GRAVITY))%float)),
                  map EvRead (full_scan_reads d))
       /\ reefnet_sensusultra_parser_get_datetime p
          = Some (datetime_of (systime - wrap32 (devtime - u32 d 4)),
                  [EvRead 4; EvRead 5; EvRead 6; EvRead 7]).
Proof.
  intros Hlen. split; [reflexivity|]. split; [reflexivity|].
  eexists. eexists. split; [reflexivity|]. split; [reflexivity|].
  split; [reflexivity|]. split.
  - rewrite get_field_miss; [reflexivity | exact Hlen | reflexivity].
  - unfold reefnet_sensusultra_parser_get_datetime, datetime_of.
    cbn [Z.add Pos.add].
    replace (size _ <? 8) with false
      by (symmetry; apply Z.ltb_ge; unfold size; cbn; lia).
    rewrite array_uint32_le_run, bind_Some. cbn.
    destruct (dc_datetime_localtime _); reflexivity.
Qed.

(** X2. A NULL handle and a handle of another device family are turned
    down by [set_data], [set_calibration], [samples_foreach] and
    [destroy] with INVALIDARGS: the object is left as it was, no byte is
    read and no callback invoked. [destroy] frees a handle exactly when
    it is a parser of this family. *)
Theorem X2_invalid_handle_rejected (abstract : option reefnet_sensusultra_parser_t) :
  (abstract = None
   \/ exists p, abstract = Some p
                /\ backend (base p) <> reefnet_sensusultra_parser_backend) ->
  (forall d n,
      reefnet_sensusultra_parser_set_data abstract d n = (DC_STATUS_INVALIDARGS, abstract))
  /\ (forall a h,
         reefnet_sensusultra_parser_set_calibration abstract a h
         = (DC_STATUS_INVALIDARGS, abstract))
  /\ (forall callback,
         reefnet_sensusultra_parser_samples_foreach abstract callback
         = Some (DC_STATUS_INVALIDARGS, []))
  /\ reefnet_sensusultra_parser_destroy abstract = (DC_STATUS_INVALIDARGS, abstract)
  /\ (forall q, parser_is_reefnet_sensusultra (Some q) = true ->
                reefnet_sensusultra_parser_destroy (Some q) = (DC_STATUS_SUCCESS, None)).
Proof.
  intros H. apply invalid_handle in H.
  unfold reefnet_sensusultra_parser_set_data, reefnet_sensusultra_parser_set_calibration,
    reefnet_sensusultra_parser_samples_foreach, reefnet_sensusultra_parser_destroy.
  rewrite H. cbn [negb]. repeat split.
  intros q Hq. rewrite Hq. reflexivity.
Qed.

(** X3. The calibration survives a buffer replacement: after
    [set_calibration (a, h)] and then [set_data], the maximum depth of
    the new buffer is converted with a and h, and the clock pair is the
    one the parser had. Installing first and calibrating afterwards
    leaves the parser in the same state. *)
Theorem X3_calibration_survives_set_data
    (p0 : reefnet_sensusultra_parser_t) (a h : float) (d : list byte)
    (flags : Z) (v : field_value) :
  parser_is_reefnet_sensusultra (Some p0) = true ->
  20 <= Z.of_nat (length d) <= UINT_MAX ->
  exists p1 p2 q1,
    reefnet_sensusultra_parser_set_calibration (Some p0) a h = (DC_STATUS_SUCCESS, Some p1)
    /\ parser_set_data (Some p1) d = (DC_STATUS_SUCCESS, Some p2)
    /\ atmospheric p2 = a /\ hydrostatic p2 = h
    /\ devtime p2 = devtime p0 /\ systime p2 = systime p0
    /\ reefnet_sensusultra_parser_get_field p2 FIELD_TYPE_MAXDEPTH flags (Some v)
       = Some ((DC_STATUS_SUCCESS, scanned p2,
                Some (FV_double ((double_of_uint (scan_maxdepth d) * BAR / 1000 - a) / h)%float)),
               map EvRead (full_scan_reads d))
    /\ parser_set_data (Some p0) d = (DC_STATUS_SUCCESS, Some q1)
    /\ reefnet_sensusultra_parser_set_calibration (Some q1) a h
       = (DC_STATUS_SUCCESS, Some p2).
Proof.
  intros Hv Hlen.
  exists (set_calibration_fields p0 a h), (installed (set_calibration_fields p0 a h) d),
    (installed p0 d).
  split; [apply set_calibration_ok, Hv|].
  split; [apply parser_set_data_ok, Hv|].
  repeat split.
  - rewrite get_field_miss; [reflexivity | exact Hlen | reflexivity].
  - apply parser_set_data_ok, Hv.
  - rewrite set_calibration_ok by exact Hv. reflexivity.
Qed.

(** ** Further properties: the aggregate scan *)

Lemma filter_length_bound {A : Type} (f : A -> bool) (l : list A) :
  (length (filter f l) <= length l)%nat.
Proof.
  induction l as [|x l IH]; [apply le_n|].
  cbn [filter]. destruct (f x); cbn [length]; lia.
Qed.

Lemma largest_ge (ds : list Z) (x : Z) : In x ds -> x <= largest ds.
Proof.
  induction ds as [|y ds IH]; [contradiction|].
  intros [->|H]; cbn [largest fold_right]; [lia|].
  specialize (IH H). unfold largest in IH. lia.
Qed.

Lemma largest_in (ds : list Z) :
  (forall x, In x ds -> 0 <= x) -> ds <> [] -> In (largest ds) ds.
Proof.
  induction ds as [|y ds IH]; intros Hpos Hne; [contradiction|].
  cbn [largest fold_right]. fold (largest ds).
  destruct ds as [|z ds'].
  - left. cbn. specialize (Hpos y (or_introl eq_refl)). lia.
  - destruct (Z.max_spec y (largest (z :: ds'))) as [[_ ->]|[_ ->]].
    + right. apply IH; [|discriminate]. intros x Hx. apply Hpos. right. exact Hx.
    + left. reflexivity.
Qed.

(** The units of the aggregate scan, by index: there are [n] of them
    when the scan stops at 16 + 4n. *)
Lemma scan_units_nth (d : list byte) (k : nat) :
  16 <= Z.of_nat (length d) ->
  (k < length (scan_units d))%nat ->
  nth_error (scan_units d) k = Some (u16 d (16 + 4 * Z.of_nat k), depth_at d k)
  /\ 16 + 4 * Z.of_nat k + 4 <= Z.of_nat (length d).
Proof.
  intros H16 Hk.
  assert (Hd : d = firstn 16 d ++ skipn 16 d) by (symmetry; apply firstn_skipn).
  destruct (sample_units_nth k d _ _ Hd Hk) as (Hn & Hb & _).
  rewrite length_firstn in Hn, Hb.
  replace (Z.of_nat (Nat.min 16 (length d))) with 16 in Hn, Hb by lia.
  split; assumption.
Qed.

Lemma scan_units_fit (d : list byte) :
  16 <= Z.of_nat (length d) ->
  16 + 4 * Z.of_nat (length (scan_units d)) <= Z.of_nat (length d).
Proof.
  intros H16. destruct (length (scan_units d)) as [|n] eqn:E; [lia|].
  destruct (scan_units_nth d n H16) as [_ H]; lia.
Qed.

(** The qualifying depths are the depths of the units, taken at their
    offsets, that reach the threshold. *)
Lemma qualifying_depths (d : list byte) (x : Z) :
  16 <= Z.of_nat (length d) ->
  In x (qualifying (scan_threshold d) (scan_units d))
  <-> exists k, (k < length (scan_units d))%nat
                /\ x = depth_at d k /\ scan_threshold d <= x.
Proof.
  intros H16. unfold qualifying. rewrite filter_In, in_map_iff. split.
  - intros [([t dp] & Hs & Hin) Hq]. cbn [snd] in Hs. subst dp.
    destruct (In_nth_error _ _ Hin) as [k Hk].
    assert (Hlt : (k < length (scan_units d))%nat)
      by (apply nth_error_Some; congruence).
    destruct (scan_units_nth d k H16 Hlt) as [Hn _].
    rewrite Hn in Hk. injection Hk as _ Hx.
    exists k. split; [exact Hlt|]. split; [congruence|]. apply Z.leb_le. exact Hq.
  - intros (k & Hlt & -> & Hq).
    destruct (scan_units_nth d k H16 Hlt) as [Hn _]. split.
    + exists (u16 d (16 + 4 * Z.of_nat k), depth_at d k).
      split; [reflexivity|]. apply (nth_error_In _ _ Hn).
    + apply Z.leb_le. exact Hq.
Qed.

(** A query on an invalid cache leaves the parser scanned. *)
Lemma get_field_scans (p : reefnet_sensusultra_parser_t) (type : parser_field_type_t)
    (flags : Z) (value : option field_value) :
  20 <= size (base p) <= UINT_MAX -> cached p = 0 ->
  exists st v',
    reefnet_sensusultra_parser_get_field p type flags value
    = Some ((st, scanned p, v'), map EvRead (full_scan_reads (data (base p)))).
Proof.
  intros Hlen Hc. rewrite get_field_miss by assumption.
  pose proof (answer_parser (scanned p) type value) as Hp.
  destruct (answer (scanned p) type value) as [[st p'] v']. cbn [fst snd] in Hp.
  subst p'. exists st, v'. reflexivity.
Qed.

(** X4. A scan leaves the cache within its types' ranges: the raw
    maximum depth is a 16-bit value and the dive time an [unsigned int].
    The scan visits at most (size - 16) / 4 units, so on a buffer of at
    most 262164 bytes the product count * interval cannot wrap and the
    dive time is exactly that product. *)
Theorem X4_cached_values_in_range
    (p : reefnet_sensusultra_parser_t) (type : parser_field_type_t)
    (flags : Z) (value : option field_value) :
  20 <= size (base p) <= UINT_MAX -> cached p = 0 ->
  let d := data (base p) in
  let n := Z.of_nat (length (scan_units d)) in
  let count := Z.of_nat (length (qualifying (scan_threshold d) (scan_units d))) in
  exists st p' v' t,
    reefnet_sensusultra_parser_get_field p type flags value = Some ((st, p', v'), t)
    /\ cached p' = 1
    /\ 0 <= maxdepth p' <= 65535
    /\ 0 <= divetime p' <= UINT_MAX
    /\ count <= n /\ 16 + 4 * n <= size (base p)
    /\ (size (base p) <= 262164 -> divetime p' = count * scan_interval d).
Proof.
  intros Hlen Hc d n count.
  destruct (get_field_scans p type flags value Hlen Hc) as (st & v' & Hrun).
  exists st, (scanned p), v', (map EvRead (full_scan_reads d)).
  assert (H16 : 16 <= Z.of_nat (length d)) by (unfold size in Hlen; fold d in Hlen; lia).
  assert (Hcount : count <= n).
  { subst count n. unfold qualifying.
    pose proof (filter_length_bound (fun depth => scan_threshold d <=? depth)
                  (map snd (scan_units d))) as H.
    rewrite length_map in H. lia. }
  assert (Hfit : 16 + 4 * n <= size (base p)) by (apply scan_units_fit, H16).
  pose proof (u16_range d 8) as Hi. fold (scan_interval d) in Hi.
  split; [exact Hrun|]. split; [reflexivity|]. split; [|split; [|split; [|split]]].
  - cbn [scanned maxdepth set_cache_fields]. fold d. unfold scan_maxdepth.
    split; [apply largest_nonneg|].
    destruct (qualifying (scan_threshold d) (scan_units d)) as [|x q] eqn:E;
      [cbn; lia|].
    assert (Hin : In (largest (x :: q)) (x :: q)).
    { apply largest_in; [|discriminate]. intros y Hy. rewrite <- E in Hy.
      apply (qualifying_depths d y H16) in Hy. destruct Hy as (k & _ & -> & _).
      apply u16_range. }
    rewrite <- E in Hin |- *.
    apply (qualifying_depths d _ H16) in Hin. destruct Hin as (k & _ & Hk & _).
    rewrite Hk. apply u16_range.
  - cbn [scanned divetime set_cache_fields]. fold d. unfold scan_divetime, wrap32, UINT_MAX.
    pose proof (Z.mod_pos_bound
                  (Z.of_nat (length (qualifying (scan_threshold d) (scan_units d)))
                   * scan_interval d) 4294967296 eq_refl). lia.
  - exact Hcount.
  - exact Hfit.
  - intros Hsmall. cbn [scanned divetime set_cache_fields]. fold d.
    unfold scan_divetime. fold count.
    apply wrap32_small. unfold UINT_MAX. split; [subst count; nia|].
    assert (count <= 65537) by lia. nia.
Qed.

(** X5. The raw maximum depth a scan caches is an upper bound of the
    depth of every unit that reaches the threshold, and it is the depth
    of one of them unless it is 0; when no unit reaches the threshold
    both the raw maximum depth and the dive time are 0. *)
Theorem X5_maxdepth_attained
    (p : reefnet_sensusultra_parser_t) (type : parser_field_type_t)
    (flags : Z) (value : option field_value) :
  20 <= size (base p) <= UINT_MAX -> cached p = 0 ->
  let d := data (base p) in
  let n := length (scan_units d) in
  exists st p' v' t,
    reefnet_sensusultra_parser_get_field p type flags value = Some ((st, p', v'), t)
    /\ (forall k, (k < n)%nat -> scan_threshold d <= depth_at d k ->
                  depth_at d k <= maxdepth p')
    /\ (maxdepth p' = 0
        \/ exists k, (k < n)%nat /\ scan_threshold d <= depth_at d k
                     /\ maxdepth p' = depth_at d k)
    /\ ((forall k, (k < n)%nat -> depth_at d k < scan_threshold d) ->
        maxdepth p' = 0 /\ divetime p' = 0).
Proof.
  intros Hlen Hc d n.
  destruct (get_field_scans p type flags value Hlen Hc) as (st & v' & Hrun).
  exists st, (scanned p), v', (map EvRead (full_scan_reads d)).
  assert (H16 : 16 <= Z.of_nat (length d)) by (unfold size in Hlen; fold d in Hlen; lia).
  split; [exact Hrun|]. cbn [scanned maxdepth divetime set_cache_fields]. fold d.
  split; [|split].
  - intros k Hk Hq. apply largest_ge. apply (qualifying_depths d _ H16).
    exists k. repeat split; assumption.
  - unfold scan_maxdepth.
    destruct (qualifying (scan_threshold d) (scan_units d)) as [|x q] eqn:E;
      [left; reflexivity|].
    right.
    assert (Hin : In (largest (x :: q)) (x :: q)).
    { apply largest_in; [|discriminate]. intros y Hy. rewrite <- E in Hy.
      apply (qualifying_depths d y H16) in Hy. destruct Hy as (k & _ & -> & _).
      apply u16_range. }
    rewrite <- E in Hin. apply (qualifying_depths d _ H16) in Hin.
    destruct Hin as (k & Hk & Heq & Hq). exists k. rewrite <- E, <- Heq.
    repeat split; assumption.
  - intros Hnone.
    assert (E : qualifying (scan_threshold d) (scan_units d) = []).
    { destruct (qualifying (scan_threshold d) (scan_units d)) as [|x q] eqn:E;
        [reflexivity|].
      assert (Hin : In x (qualifying (scan_threshold d) (scan_units d)))
        by (rewrite E; left; reflexivity).
      apply (qualifying_depths d _ H16) in Hin. destruct Hin as (k & Hk & -> & Hq).
      specialize (Hnone k Hk). lia. }
    unfold scan_maxdepth, scan_divetime. rewrite E. split; reflexivity.
Qed.

Lemma scan_reads_footer (n : nat) :
  forall (off : Z) (region rest : list byte),
    length region = (4 * n)%nat ->
    Forall (fun o => off <= o < off + 4 * Z.of_nat n + 4)
           (scan_reads off (region ++ footer ++ rest)).
Proof.
  induction n as [|n IH]; intros off region rest H.
  - destruct region; [|cbn [length] in H; lia].
    cbn [app footer scan_reads is_footer is_byte Byte.eqb andb].
    repeat constructor; lia.
  - destruct region as [|b0 [|b1 [|b2 [|b3 r]]]]; cbn [length] in H; try lia.
    change ((b0 :: b1 :: b2 :: b3 :: r) ++ footer ++ rest)
      with (b0 :: b1 :: b2 :: b3 :: (r ++ footer ++ rest)).
    cbn [scan_reads app].
    repeat (apply Forall_cons; [lia|]).
    destruct (is_footer b0 b1 b2 b3); [apply Forall_nil|]. cbn [app].
    repeat (apply Forall_cons; [lia|]).
    assert (Hr : length r = (4 * n)%nat) by lia.
    apply (Forall_impl _ (P := fun o => off + 4 <= o < off + 4 + 4 * Z.of_nat n + 4));
      [intros o Ho; lia | apply IH, Hr].
Qed.

Lemma scan_reads_from (m : nat) :
  forall (off : Z) (l : list byte),
    (length l <= m)%nat -> Forall (fun o => off <= o) (scan_reads off l).
Proof.
  induction m as [|m IH]; intros off l Hm;
    destruct l as [|b0 [|b1 [|b2 [|b3 rest]]]]; cbn [length] in Hm; try lia;
    try (cbn [scan_reads]; apply Forall_nil).
  cbn [scan_reads app].
  repeat (apply Forall_cons; [lia|]).
  destruct (is_footer b0 b1 b2 b3); [apply Forall_nil|]. cbn [app].
  repeat (apply Forall_cons; [lia|]).
  apply (Forall_impl _ (P := fun o => off + 4 <= o));
    [intros o Ho; lia | apply IH; lia].
Qed.

(** X6. The aggregate scan ends at a footer on a unit boundary: when the
    buffer is [body ++ footer ++ rest] with [body] the 16-byte header
    and n whole units, the cached dive time and raw maximum depth are
    those of the units of [body] alone, and no byte after the footer is
    read, whatever [rest] holds. *)
Theorem X6_scan_stops_at_footer
    (p : reefnet_sensusultra_parser_t) (body rest : list byte) (n : nat)
    (type : parser_field_type_t) (flags : Z) (value : option field_value) :
  data (base p) = body ++ footer ++ rest ->
  length body = (16 + 4 * n)%nat ->
  size (base p) <= UINT_MAX -> cached p = 0 ->
  let depths := qualifying (u16 body 10) (sample_units (skipn 16 body)) in
  exists st p' v' t,
    reefnet_sensusultra_parser_get_field p type flags value = Some ((st, p', v'), t)
    /\ divetime p' = wrap32 (Z.of_nat (length depths) * u16 body 8)
    /\ maxdepth p' = largest depths
    /\ Forall (fun o => o < Z.of_nat (length body) + 4) (reads t).
Proof.
  intros Hd Hbody Hmax Hc depths.
  assert (Hlen : 20 <= size (base p) <= UINT_MAX).
  { split; [|exact Hmax]. unfold size. rewrite Hd, !length_app. cbn [length footer]. lia. }
  destruct (get_field_scans p type flags value Hlen Hc) as (st & v' & Hrun).
  exists st, (scanned p), v', (map EvRead (full_scan_reads (data (base p)))).
  split; [exact Hrun|].
  assert (Hunits : scan_units (data (base p)) = sample_units (skipn 16 body)).
  { unfold scan_units. rewrite Hd, skipn_app.
    replace (16 - length body)%nat with 0%nat by lia. rewrite skipn_O.
    apply (sample_units_footer n). rewrite length_skipn. lia. }
  assert (Hthr : scan_threshold (data (base p)) = u16 body 10)
    by (unfold scan_threshold; rewrite Hd; apply u16_app_l; lia).
  assert (Hint : scan_interval (data (base p)) = u16 body 8)
    by (unfold scan_interval; rewrite Hd; apply u16_app_l; lia).
  cbn [scanned divetime maxdepth set_cache_fields].
  unfold scan_divetime, scan_maxdepth. rewrite Hunits, Hthr, Hint.
  split; [reflexivity|]. split; [reflexivity|].
  rewrite reads_map_EvRead. unfold full_scan_reads. rewrite Hd, skipn_app.
  replace (16 - length body)%nat with 0%nat by lia. rewrite skipn_O.
  apply Forall_app. split; [repeat constructor; lia|].
  apply (Forall_impl _ (P := fun o => 16 <= o < 16 + 4 * Z.of_nat n + 4));
    [intros o Ho; lia|].
  apply scan_reads_footer. rewrite length_skipn. lia.
Qed.

(** X7. The queries leave most of the header alone: [get_field] reads
    the interval and threshold at offsets 8 to 11 and the sample region
    from offset 16 on, never the bytes 0 to 7 or 12 to 15; and
    [get_datetime] reads the bytes 4 to 7 only. *)
Theorem X7_header_bytes_unused (p : reefnet_sensusultra_parser_t) :
  size (base p) <= UINT_MAX ->
  (forall type flags value, exists r t,
      reefnet_sensusultra_parser_get_field p type flags value = Some (r, t)
      /\ Forall (fun o => 8 <= o < 12 \/ 16 <= o) (reads t))
  /\ (exists r t,
         reefnet_sensusultra_parser_get_datetime p = Some (r, t)
         /\ Forall (fun o => 4 <= o < 8) (reads t)).
Proof.
  intros Hmax. split.
  - intros type flags value.
    destruct (Z.lt_ge_cases (size (base p)) 20) as [Hs|Hs].
    + rewrite get_field_short by exact Hs. eexists. eexists.
      split; [reflexivity | apply Forall_nil].
    + destruct (Z.eq_dec (cached p) 0) as [Hc|Hc].
      * rewrite get_field_miss by auto. eexists. eexists. split; [reflexivity|].
        rewrite reads_map_EvRead. unfold full_scan_reads.
        apply Forall_app. split; [repeat constructor; lia|].
        apply (Forall_impl _ (P := fun o => 16 <= o)); [intros o Ho; right; exact Ho|].
        apply (scan_reads_from (length (skipn 16 (data (base p))))). apply le_n.
      * rewrite get_field_hit by auto. eexists. eexists.
        split; [reflexivity | apply Forall_nil].
  - unfold reefnet_sensusultra_parser_get_datetime. cbn [Z.add Pos.add].
    destruct (size (base p) <? 8).
    + eexists. eexists. split; [reflexivity | apply Forall_nil].
    + rewrite array_uint32_le_run, bind_Some.
      destruct (dc_datetime_localtime _); eexists; eexists;
        (split; [reflexivity|]); cbn [reads flat_map app]; repeat constructor; lia.
Qed.

(** ** Further properties: the sample scanner *)

Lemma drop_callbacks_app (t1 t2 : list event) :
  drop_callbacks (t1 ++ t2) = drop_callbacks t1 ++ drop_callbacks t2.
Proof. unfold drop_callbacks. apply filter_app. Qed.

Lemma reads_drop_callbacks (t : list event) : reads (drop_callbacks t) = reads t.
Proof.
  induction t as [|[o|ty v] t IH]; [reflexivity| |]; cbn.
  - f_equal. exact IH.
  - exact IH.
Qed.

Lemma callbacks_drop_callbacks (t : list event) : callbacks (drop_callbacks t) = [].
Proof. induction t as [|[o|ty v] t IH]; [reflexivity| |]; cbn; exact IH. Qed.

(** Without a callback the sample loop does what it does with one,
    except for the invocations. *)
Lemma samples_loop_null (p : reefnet_sensusultra_parser_t) (d : list byte)
    (sz interval : Z) (fuel : nat) :
  forall (offset time : Z),
    samples_loop fuel p false d sz interval offset time
    = without_callbacks (samples_loop fuel p true d sz interval offset time).
Proof.
  induction fuel as [|fuel IH]; intros offset time; [reflexivity|].
  cbn [samples_loop].
  destruct (offset + 4 <=? sz); [|reflexivity].
  destruct (memcmp_run d offset xff xff xff xff) as (r & Hr & _).
  unfold footer. rewrite Hr, !bind_Some.
  destruct (negb (r =? 0)); [|reflexivity].
  rewrite !array_uint16_le_run. cbn [invoke emit ret bind app].
  rewrite IH.
  destruct (samples_loop fuel p true d sz interval (wrap32 (offset + 4))
                         (wrap32 (time + interval))) as [[[] t]|];
    reflexivity.
Qed.

Lemma header_loop_null (p : reefnet_sensusultra_parser_t) (d : list byte)
    (sz : Z) (fuel : nat) :
  forall (offset : Z),
    header_loop fuel p false d sz offset
    = without_callbacks (header_loop fuel p true d sz offset).
Proof.
  induction fuel as [|fuel IH]; intros offset; [reflexivity|].
  cbn [header_loop].
  destruct (offset + 4 <=? sz); [|reflexivity].
  destruct (memcmp_run d offset x00 x00 x00 x00) as (r & Hr & _).
  unfold header. rewrite Hr, !bind_Some.
  destruct (r =? 0).
  - destruct (wrap32 (offset + 16) >? sz); [reflexivity|].
    rewrite array_uint16_le_run, !bind_Some, samples_loop_null.
    destruct (samples_loop (S (length d)) p true d sz (u16 d (offset + 8))
                           (wrap32 (offset + 16)) 0) as [[[] t]|]; [|reflexivity].
    cbn [without_callbacks bind ret app]. rewrite !app_nil_r. reflexivity.
  - rewrite IH.
    destruct (header_loop fuel p true d sz (wrap32 (offset + 1))) as [[st t]|];
      reflexivity.
Qed.

(** X9. The callback has no say in the control flow of
    [samples_foreach]: called with a NULL callback it returns the same
    status and reads the same bytes in the same order as with a
    callback, and invokes nothing. This holds for every handle and every
    buffer. *)
Theorem X9_null_callback_same_scan (abstract : option reefnet_sensusultra_parser_t) :
  reefnet_sensusultra_parser_samples_foreach abstract false
  = without_callbacks (reefnet_sensusultra_parser_samples_foreach abstract true)
  /\ forall st t,
       reefnet_sensusultra_parser_samples_foreach abstract true = Some (st, t) ->
       exists t0,
         reefnet_sensusultra_parser_samples_foreach abstract false = Some (st, t0)
         /\ reads t0 = reads t /\ callbacks t0 = [].
Proof.
  assert (H : reefnet_sensusultra_parser_samples_foreach abstract false
              = without_callbacks
                  (reefnet_sensusultra_parser_samples_foreach abstract true)).
  { unfold reefnet_sensusultra_parser_samples_foreach.
    destruct (negb (parser_is_reefnet_sensusultra abstract)); [reflexivity|].
    destruct abstract as [p|]; [apply header_loop_null | reflexivity]. }
  split; [exact H|]. intros st t Ht. rewrite H, Ht.
  exists (drop_callbacks t). split; [reflexivity|].
  split; [apply reads_drop_callbacks | apply callbacks_drop_callbacks].
Qed.

Lemma is_header_true (b0 b1 b2 b3 : byte) :
  is_header b0 b1 b2 b3 = true <-> [b0; b1; b2; b3] = header.
Proof.
  unfold is_header, is_byte, header. rewrite !andb_true_iff. split.
  - intros [[[H0 H1] H2] H3].
    apply Byte.byte_dec_bl in H0, H1, H2, H3. subst. reflexivity.
  - intros H. injection H as -> -> -> ->. repeat split.
Qed.

Lemma sentinel_at_unit (b0 b1 b2 b3 : byte) (rest : list byte) :
  sentinel_at (b0 :: b1 :: b2 :: b3 :: rest) 0 <-> is_header b0 b1 b2 b3 = true.
Proof. unfold sentinel_at. cbn [skipn firstn]. symmetry. apply is_header_true. Qed.

Lemma sentinel_at_short (l : list byte) :
  (length l < 4)%nat -> forall j, ~ sentinel_at l j.
Proof.
  intros Hl j H. unfold sentinel_at in H.
  apply (f_equal (@length byte)) in H. rewrite length_firstn, length_skipn in H.
  change (length header) with 4%nat in H. lia.
Qed.

(** The scan for the header finds the least offset that holds the
    sentinel. *)
Lemma find_header_Some (l : list byte) :
  forall k, find_header l = Some k ->
            sentinel_at l k /\ forall j, (j < k)%nat -> ~ sentinel_at l j.
Proof.
  induction l as [|b0 t IH]; intros k H; [discriminate|].
  destruct t as [|b1 [|b2 [|b3 rest]]]; try discriminate.
  rewrite find_header_unit in H. destruct (is_header b0 b1 b2 b3) eqn:E.
  - injection H as <-. split; [apply sentinel_at_unit, E | intros j Hj; lia].
  - destruct (find_header (b1 :: b2 :: b3 :: rest)) as [k'|]; [|discriminate].
    injection H as <-. destruct (IH k' eq_refl) as [Hk Hmin]. split; [exact Hk|].
    intros [|j] Hj.
    + rewrite sentinel_at_unit. congruence.
    + apply (Hmin j). lia.
Qed.

Lemma find_header_None (l : list byte) :
  find_header l = None -> forall j, ~ sentinel_at l j.
Proof.
  induction l as [|b0 t IH]; intros H j.
  - apply sentinel_at_short. cbn. lia.
  - destruct t as [|b1 [|b2 [|b3 rest]]];
      try (apply sentinel_at_short; cbn; lia).
    rewrite find_header_unit in H. destruct (is_header b0 b1 b2 b3) eqn:E;
      [discriminate|].
    destruct (find_header (b1 :: b2 :: b3 :: rest)) as [k'|]; [discriminate|].
    destruct j as [|j].
    + rewrite sentinel_at_unit. congruence.
    + apply (IH eq_refl j).
Qed.

Lemma find_header_least (l : list byte) (k : nat) :
  sentinel_at l k -> (forall j, (j < k)%nat -> ~ sentinel_at l j) ->
  find_header l = Some k.
Proof.
  intros Hk Hmin. destruct (find_header l) as [k'|] eqn:E.
  - destruct (find_header_Some l k' E) as [Hk' Hmin'].
    destruct (Nat.lt_trichotomy k' k) as [Hlt|[->|Hlt]].
    + exfalso. apply (Hmin k' Hlt Hk').
    + reflexivity.
    + exfalso. apply (Hmin' k Hlt Hk).
  - exfalso. apply (find_header_None l E k Hk).
Qed.

(** X10. The record [samples_foreach] decodes starts at the least
    offset whose 4 bytes are all zero, on or off the 4-byte grid and
    whatever precedes it; its interval is read 8 bytes and its samples
    16 bytes after that offset. When no offset holds 4 zero bytes the
    call succeeds and invokes no callback. *)
Theorem X10_first_sentinel_anywhere
    (p : reefnet_sensusultra_parser_t) (callback : bool) :
  parser_is_reefnet_sensusultra (Some p) = true ->
  size (base p) <= UINT_MAX ->
  let d := data (base p) in
  let run := reefnet_sensusultra_parser_samples_foreach (Some p) callback in
  ((forall j, ~ sentinel_at d j) ->
   exists t, run = Some (DC_STATUS_SUCCESS, t) /\ callbacks t = [])
  /\ (forall k,
         sentinel_at d k -> (forall j, (j < k)%nat -> ~ sentinel_at d j) ->
         Z.of_nat k + 16 <= size (base p) ->
         exists t,
           run = Some (DC_STATUS_SUCCESS, t)
           /\ callbacks t
              = if callback
                then record_callbacks p (u16 d (Z.of_nat k + 8)) 0
                                      (sample_units (skipn (k + 16) d))
                else []).
Proof.
  intros Hv Hmax d run.
  pose proof (samples_foreach_run p callback Hv Hmax) as Hrun.
  cbv zeta in Hrun. fold d in Hrun. fold run in Hrun. split.
  - intros Hnone. destruct (find_header d) as [k|] eqn:E.
    + exfalso. apply (Hnone k). apply (find_header_Some d k E).
    + destruct Hrun as (t & Ht & Hcb & _). exists t. split; assumption.
  - intros k Hk Hmin Hlong. rewrite (find_header_least d k Hk Hmin) in Hrun.
    destruct (proj1 Hrun Hlong) as (t & Ht & Hcb & _).
    replace (Z.to_nat (Z.of_nat k + 16)) with (k + 16)%nat in Hcb by lia.
    exists t. split; assumption.
Qed.

Lemma sample_units_depths (m : nat) :
  forall l, (length l <= m)%nat -> Forall (fun u => 0 <= snd u) (sample_units l).
Proof.
  induction m as [|m IH]; intros l Hm;
    destruct l as [|b0 [|b1 [|b2 [|b3 rest]]]]; cbn [length] in Hm; try lia;
    try (cbn [sample_units]; apply Forall_nil).
  cbn [sample_units]. destruct (is_footer b0 b1 b2 b3); [apply Forall_nil|].
  apply Forall_cons; [cbn [snd]; apply le16_range | apply IH; lia].
Qed.

Lemma qualifying_all (us : list (Z * Z)) :
  Forall (fun u => 0 <= snd u) us -> qualifying 0 us = map snd us.
Proof.
  unfold qualifying. induction 1 as [|u us Hu _ IH]; [reflexivity|].
  cbn [map filter]. replace (0 <=? snd u) with true by (symmetry; apply Z.leb_le, Hu).
  f_equal. exact IH.
Qed.

(** X11. On a buffer that begins with the zero sentinel, [get_field]
    and [samples_foreach] measure the same record: the samples emitted
    are those of the units the aggregate scan visits, three callbacks
    each, with the interval of the aggregate scan, and the units counted
    for the dive time are among them. With a threshold of 0 every unit
    counts, and the dive time is the time stamped on the last sample. *)
Theorem X11_field_and_samples_agree
    (p : reefnet_sensusultra_parser_t) (flags : Z) (v : field_value) :
  parser_is_reefnet_sensusultra (Some p) = true ->
  20 <= size (base p) <= UINT_MAX ->
  cached p = 0 ->
  let d := data (base p) in
  sentinel_at d 0 ->
  let n := length (scan_units d) in
  exists t p' t',
    reefnet_sensusultra_parser_samples_foreach (Some p) true = Some (DC_STATUS_SUCCESS, t)
    /\ callbacks t = record_callbacks p (scan_interval d) 0 (scan_units d)
    /\ length (callbacks t) = (3 * n)%nat
    /\ reefnet_sensusultra_parser_get_field p FIELD_TYPE_DIVETIME flags (Some v)
       = Some ((DC_STATUS_SUCCESS, p', Some (FV_uint (divetime p'))), t')
    /\ (length (qualifying (scan_threshold d) (scan_units d)) <= n)%nat
    /\ (scan_threshold d = 0 ->
        divetime p' = wrap32 (Z.of_nat n * scan_interval d)
        /\ forall i, n = S i -> divetime p' = sample_time_of (scan_interval d) i).
Proof.
  intros Hv Hlen Hc d H0 n.
  pose proof (samples_foreach_run p true Hv (proj2 Hlen)) as Hrun.
  cbv zeta in Hrun. fold d in Hrun.
  rewrite (find_header_least d 0 H0) in Hrun by (intros j Hj; lia).
  destruct (proj1 Hrun) as (t & Ht & Hcb & _); [cbn; lia|].
  change (Z.to_nat (Z.of_nat 0 + 16)) with 16%nat in Hcb.
  change (Z.of_nat 0 + 8) with 8 in Hcb.
  fold (scan_units d) (scan_interval d) in Hcb.
  exists t, (scanned p), (map EvRead (full_scan_reads d)).
  split; [exact Ht|]. split; [exact Hcb|].
  split; [rewrite Hcb; apply record_callbacks_length|].
  split; [rewrite get_field_miss by assumption; reflexivity|].
  split.
  - unfold qualifying. subst n. rewrite <- (length_map snd (scan_units d)).
    apply filter_length_bound.
  - intros Hthr. cbn [scanned divetime set_cache_fields]. fold d.
    unfold scan_divetime. rewrite Hthr, qualifying_all, length_map.
    + fold n. split; [reflexivity|]. intros i ->. reflexivity.
    + apply (sample_units_depths (length (skipn 16 d))). apply le_n.
Qed.

(** ** Further properties: the clock and the independence of the queries *)

Lemma get_datetime_run (p : reefnet_sensusultra_parser_t) :
  8 <= size (base p) ->
  reefnet_sensusultra_parser_get_datetime p
  = Some (datetime_of (systime p - wrap32 (devtime p - u32 (data (base p)) 4)),
          [EvRead 4; EvRead 5; EvRead 6; EvRead 7]).
Proof.
  intros H. unfold reefnet_sensusultra_parser_get_datetime, datetime_of.
  apply Z.ltb_ge in H. cbn [Z.add Pos.add]. rewrite H.
  rewrite array_uint32_le_run, bind_Some.
  destruct (dc_datetime_localtime _); reflexivity.
Qed.

(** X12. The time [get_datetime] converts never lies after the host
    synchronisation time and at most UINT_MAX ticks before it; it is the
    synchronisation time itself when the dive's timestamp equals the
    device synchronisation time. It depends on the clock pair and the
    bytes 4 to 7 of the buffer only: calibration, cache and the rest of
    the buffer have no influence. *)
Theorem X12_datetime_not_after_sync (p : reefnet_sensusultra_parser_t) :
  8 <= size (base p) ->
  exists ticks,
    reefnet_sensusultra_parser_get_datetime p
    = Some (datetime_of ticks, [EvRead 4; EvRead 5; EvRead 6; EvRead 7])
    /\ systime p - UINT_MAX <= ticks <= systime p
    /\ (u32 (data (base p)) 4 = devtime p -> ticks = systime p)
    /\ forall p',
         8 <= size (base p') ->
         devtime p' = devtime p -> systime p' = systime p ->
         u32 (data (base p')) 4 = u32 (data (base p)) 4 ->
         reefnet_sensusultra_parser_get_datetime p'
         = reefnet_sensusultra_parser_get_datetime p.
Proof.
  intros H. eexists. split; [apply get_datetime_run, H|]. split; [|split].
  - unfold wrap32, UINT_MAX.
    pose proof (Z.mod_pos_bound (devtime p - u32 (data (base p)) 4) 4294967296 eq_refl).
    lia.
  - intros ->. rewrite Z.sub_diag. change (wrap32 0) with 0. lia.
  - intros p' H' Hd Hs Hu. rewrite !get_datetime_run by assumption.
    rewrite Hd, Hs, Hu. reflexivity.
Qed.

Lemma bind_ext {A B : Type} (c : M A) (k k' : A -> M B) :
  (forall a, k a = k' a) -> bind c k = bind c k'.
Proof.
  intros H. unfold bind. destruct c as [[a t]|]; [|reflexivity]. rewrite H. reflexivity.
Qed.

(** The sample scanner does not look at the cache. *)
Lemma samples_loop_cache (p : reefnet_sensusultra_parser_t) (c dv m : Z)
    (callback : bool) (d : list byte) (sz interval : Z) (fuel : nat) :
  forall (offset time : Z),
    samples_loop fuel (set_cache_fields p c dv m) callback d sz interval offset time
    = samples_loop fuel p callback d sz interval offset time.
Proof.
  induction fuel as [|fuel IH]; intros offset time; [reflexivity|].
  cbn [samples_loop]. destruct (offset + 4 <=? sz); [|reflexivity].
  apply bind_ext. intros r. destruct (negb (r =? 0)); [|reflexivity].
  repeat (apply bind_ext; intros ?). apply IH.
Qed.

Lemma header_loop_cache (p : reefnet_sensusultra_parser_t) (c dv m : Z)
    (callback : bool) (d : list byte) (sz : Z) (fuel : nat) :
  forall (offset : Z),
    header_loop fuel (set_cache_fields p c dv m) callback d sz offset
    = header_loop fuel p callback d sz offset.
Proof.
  induction fuel as [|fuel IH]; intros offset; [reflexivity|].
  cbn [header_loop]. destruct (offset + 4 <=? sz); [|reflexivity].
  apply bind_ext. intros r. destruct (r =? 0); [|apply IH].
  destruct (wrap32 (offset + 16) >? sz); [reflexivity|].
  apply bind_ext. intros interval. rewrite samples_loop_cache. reflexivity.
Qed.

(** X13. [get_field] writes the cache and nothing else: the buffer, the
    calibration and the clock pair of the parser it leaves are those it
    found, so [get_datetime] and [samples_foreach] return the same
    result, with the same reads and callbacks, before and after any
    field query. *)
Theorem X13_get_field_writes_cache_only
    (p : reefnet_sensusultra_parser_t) (type : parser_field_type_t)
    (flags : Z) (value : option field_value) :
  size (base p) <= UINT_MAX ->
  exists st p' v' t,
    reefnet_sensusultra_parser_get_field p type flags value = Some ((st, p', v'), t)
    /\ base p' = base p
    /\ atmospheric p' = atmospheric p /\ hydrostatic p' = hydrostatic p
    /\ devtime p' = devtime p /\ systime p' = systime p
    /\ reefnet_sensusultra_parser_get_datetime p'
       = reefnet_sensusultra_parser_get_datetime p
    /\ forall callback,
         reefnet_sensusultra_parser_samples_foreach (Some p') callback
         = reefnet_sensusultra_parser_samples_foreach (Some p) callback.
Proof.
  intros Hmax.
  assert (Hsame : exists st v' t,
             reefnet_sensusultra_parser_get_field p type flags value
             = Some ((st, p, v'), t)
             \/ reefnet_sensusultra_parser_get_field p type flags value
                = Some ((st, scanned p, v'), t)).
  { destruct (Z.lt_ge_cases (size (base p)) 20) as [Hs|Hs].
    - exists DC_STATUS_DATAFORMAT, value, []. left. apply get_field_short, Hs.
    - destruct (Z.eq_dec (cached p) 0) as [Hc|Hc].
      + destruct (get_field_scans p type flags value (conj Hs Hmax) Hc) as (st & v' & H).
        exists st, v', (map EvRead (full_scan_reads (data (base p)))). right. exact H.
      + pose proof (answer_parser p type value) as Hp.
        destruct (answer p type value) as [[st p'] v'] eqn:Ea. cbn [fst snd] in Hp.
        subst p'. exists st, v', []. left.
        rewrite get_field_hit by assumption. rewrite Ea. reflexivity. }
  destruct Hsame as (st & v' & t & [H|H]).
  - exists st, p, v', t. split; [exact H|]. repeat split.
  - exists st, (scanned p), v', t. split; [exact H|]. repeat split.
    intros callback. unfold reefnet_sensusultra_parser_samples_foreach, scanned.
    cbn [parser_is_reefnet_sensusultra base set_cache_fields].
    destruct (negb (parser_backend_eqb (backend (base p))
                                       reefnet_sensusultra_parser_backend));
      [reflexivity|].
    apply header_loop_cache.
Qed.

Lemma sample_units_tail (n : nat) :
  forall (l tail : list byte),
    length l = (4 * n)%nat -> (length tail < 4)%nat ->
    sample_units (l ++ tail) = sample_units l
    /\ forall off, scan_reads off (l ++ tail) = scan_reads off l.
Proof.
  induction n as [|n IH]; intros l tail Hl Ht.
  - destruct l; [|cbn [length] in Hl; lia].
    destruct tail as [|t0 [|t1 [|t2 [|t3 tail]]]]; cbn [length] in Ht; try lia;
      split; reflexivity.
  - destruct l as [|b0 [|b1 [|b2 [|b3 r]]]]; cbn [length] in Hl; try lia.
    change ((b0 :: b1 :: b2 :: b3 :: r) ++ tail) with (b0 :: b1 :: b2 :: b3 :: (r ++ tail)).
    assert (Hr : length r = (4 * n)%nat) by lia.
    destruct (IH r tail Hr Ht) as [Hu Hs].
    cbn [sample_units scan_reads]. rewrite Hu. split; [reflexivity|].
    intros off. rewrite Hs. reflexivity.
Qed.

(** X14. A truncated last unit is not decoded: when 1 to 3 stray bytes
    follow the last whole unit of the buffer, a field query returns the
    same status and value, caches the same dive time and raw maximum
    depth and reads the same offsets as on the buffer without them. *)
Theorem X14_truncated_unit_ignored
    (p0 : reefnet_sensusultra_parser_t) (body tail : list byte) (n : nat)
    (type : parser_field_type_t) (flags : Z) (value : option field_value) :
  length body = (16 + 4 * S n)%nat ->
  (length tail < 4)%nat ->
  Z.of_nat (length (body ++ tail)) <= UINT_MAX ->
  exists st v' pa pb t,
    reefnet_sensusultra_parser_get_field (installed p0 (body ++ tail)) type flags value
    = Some ((st, pa, v'), t)
    /\ reefnet_sensusultra_parser_get_field (installed p0 body) type flags value
       = Some ((st, pb, v'), t)
    /\ divetime pa = divetime pb /\ maxdepth pa = maxdepth pb
    /\ Forall (fun o => o < Z.of_nat (length body)) (reads t).
Proof.
  intros Hb Ht Hmax. rewrite length_app in Hmax.
  assert (Hskip : skipn 16 (body ++ tail) = skipn 16 body ++ tail).
  { rewrite skipn_app. replace (16 - length body)%nat with 0%nat by lia.
    rewrite skipn_O. reflexivity. }
  assert (Hl : length (skipn 16 body) = (4 * S n)%nat) by (rewrite length_skipn; lia).
  destruct (sample_units_tail (S n) (skipn 16 body) tail Hl Ht) as [Hu Hs].
  assert (Hunits : scan_units (body ++ tail) = scan_units body)
    by (unfold scan_units; rewrite Hskip; exact Hu).
  assert (Hthr : scan_threshold (body ++ tail) = scan_threshold body)
    by (unfold scan_threshold; apply u16_app_l; lia).
  assert (Hint : scan_interval (body ++ tail) = scan_interval body)
    by (unfold scan_interval; apply u16_app_l; lia).
  assert (Hdt : scan_divetime (body ++ tail) = scan_divetime body)
    by (unfold scan_divetime; rewrite Hunits, Hthr, Hint; reflexivity).
  assert (Hmd : scan_maxdepth (body ++ tail) = scan_maxdepth body)
    by (unfold scan_maxdepth; rewrite Hunits, Hthr; reflexivity).
  assert (Hreads : full_scan_reads (body ++ tail) = full_scan_reads body)
    by (unfold full_scan_reads; rewrite Hskip, Hs; reflexivity).
  rewrite !get_field_miss;
    [ | unfold size; cbn [installed set_cache_fields set_base base data]; lia
      | reflexivity
      | unfold size; cbn [installed set_cache_fields set_base base data];
        rewrite length_app; lia
      | reflexivity ].
  unfold scanned.
  change (data (base (installed p0 (body ++ tail)))) with (body ++ tail).
  change (data (base (installed p0 body))) with body.
  rewrite Hdt, Hmd, Hreads.
  assert (Hin : Forall (fun o => o < Z.of_nat (length body))
                       (reads (map EvRead (full_scan_reads body)))).
  { rewrite reads_map_EvRead. unfold full_scan_reads.
    apply Forall_app. split; [repeat constructor; lia|].
    assert (Hd : body = firstn 16 body ++ skipn 16 body)
      by (symmetry; apply firstn_skipn).
    pose proof (scan_reads_in_bounds (length (skipn 16 body)) body _ _ Hd (le_n _)) as H.
    rewrite length_firstn in H.
    replace (Z.of_nat (Nat.min 16 (length body))) with 16 in H by lia.
    apply (Forall_impl _ (P := in_bounds body)); [intros o Ho; apply Ho | exact H]. }
  destruct value as [v|]; [destruct type|];
    do 5 eexists; (split; [reflexivity|]); (split; [reflexivity|]);
    (split; [reflexivity|]); (split; [reflexivity | exact Hin]).
Qed.

(** ** Where the 32-bit sums wrap *)

Lemma divetime_set_cache_fields (p : reefnet_sensusultra_parser_t) (c t m : Z) :
  divetime (set_cache_fields p c t m) = t.
Proof. reflexivity. Qed.

(** The first query of a freshly installed buffer, in one equation. *)
Lemma first_query (p0 : reefnet_sensusultra_parser_t) (d : list byte)
    (type : parser_field_type_t) (flags : Z) (value : option field_value) :
  20 <= Z.of_nat (length d) <= UINT_MAX ->
  reefnet_sensusultra_parser_get_field (installed p0 d) type flags value
  = Some (answer (set_cache_fields (installed p0 d) 1 (scan_divetime d) (scan_maxdepth d))
                 type value,
          map EvRead (full_scan_reads d)).
Proof.
  intros Hlen. rewrite get_field_miss; [reflexivity | exact Hlen | reflexivity].
Qed.






End Parser.

(** ** Concrete runs *)

Lemma C1_first_query_scans_witness :
  exists p,
    parser_set_data (Some fresh_parser) dive_buffer = (DC_STATUS_SUCCESS, Some p)
    /\ exists p' t,
         reefnet_sensusultra_parser_get_field 100000 p FIELD_TYPE_DIVETIME 0
                                              (Some (FV_uint 0))
         = Some ((DC_STATUS_SUCCESS, p', Some (FV_uint 10)), t)
         /\ maxdepth p' = 200.
Proof.
  destruct (C1_first_query_scans 100000 fresh_parser dive_buffer 0 (FV_uint 0))
    as (p & Hs & H).
  - reflexivity.
  - unfold size, UINT_MAX; simpl; lia.
  - exists p. split; [exact Hs|]. destruct H as (_ & _ & Hd & _).
    eexists. eexists. split; [exact Hd | reflexivity].
Defined.

(** C1 fails as stated: 65538 qualifying units at interval 65535 make
    the product 4295032830, yet DIVETIME is 65534, the product modulo
    2^32. *)
Lemma C1_counterexample :
  exists p,
    parser_set_data (Some fresh_parser) long_dive_buffer = (DC_STATUS_SUCCESS, Some p)
    /\ 20 <= Z.of_nat (length long_dive_buffer)
    /\ u16 long_dive_buffer 8 = 65535
    /\ Z.of_nat (length (qualifying (u16 long_dive_buffer 10)
                                    (sample_units (skipn 16 long_dive_buffer)))) = 65538
    /\ (exists p' t,
          reefnet_sensusultra_parser_get_field 100000 p FIELD_TYPE_DIVETIME 0
                                               (Some (FV_uint 0))
          = Some ((DC_STATUS_SUCCESS, p', Some (FV_uint 65534)), t))
    /\ 65534 <> 65538 * 65535.
Proof.
  assert (Hlen : Z.of_nat (length long_dive_buffer) = 262168) by (vm_compute; reflexivity).
  assert (Hs : scan_divetime long_dive_buffer = 65534) by (vm_compute; reflexivity).
  exists (installed fresh_parser long_dive_buffer).
  split; [apply parser_set_data_ok; reflexivity|].
  split; [rewrite Hlen; lia|].
  split; [vm_compute; reflexivity|].
  split; [vm_compute; reflexivity|].
  split; [|lia].
  eexists. eexists.
  rewrite (first_query 100000 fresh_parser long_dive_buffer)
    by (rewrite Hlen; unfold UINT_MAX; lia).
  unfold answer. rewrite divetime_set_cache_fields, Hs. reflexivity.
Qed.

Lemma C2_sample_callbacks_witness :
  exists t,
    reefnet_sensusultra_parser_samples_foreach
      100000 (Some (installed fresh_parser dive_buffer)) true
    = Some (DC_STATUS_SUCCESS, t)
    /\ callback_times (callbacks t) = [10; 20].
Proof.
  destruct (C2_sample_callbacks 100000 (installed fresh_parser dive_buffer) 0)
    as (t & Ht & _).
  - reflexivity.
  - unfold size, UINT_MAX; simpl; lia.
  - reflexivity.
  - unfold size, UINT_MAX; simpl; lia.
  - exists t. split; [exact Ht|].
    vm_compute in Ht. injection Ht as <-. reflexivity.
Defined.

(** C2 fails as stated: with interval 0 the time does not increase. *)
Lemma C2_counterexample :
  exists t,
    reefnet_sensusultra_parser_samples_foreach
      100000 (Some (installed fresh_parser zero_buffer)) true
    = Some (DC_STATUS_SUCCESS, t)
    /\ callback_times (callbacks t) = [0; 0]
    /\ ~ (forall a b rest, callback_times (callbacks t) = a :: b :: rest -> a < b).
Proof.
  eexists. split; [vm_compute; reflexivity|]. split; [reflexivity|].
  intros H. specialize (H 0 0 [] eq_refl). lia.
Qed.

Lemma C3_datetime_rebased_witness :
  reefnet_sensusultra_parser_get_datetime Z Some (installed fresh_parser dive_buffer)
  = Some ((DC_STATUS_SUCCESS, Some 49900), [EvRead 4; EvRead 5; EvRead 6; EvRead 7]).
Proof.
  assert (H8 : 8 <= size (base (installed fresh_parser dive_buffer)))
    by (unfold size; simpl; lia).
  destruct (C3_datetime_rebased Z Some (installed fresh_parser dive_buffer) H8) as [H _].
  exact H.
Defined.

(** C3 fails as stated: with a timestamp of 1001, past the device time
    1000, the inner difference wraps to 4294967295 and the tick value
    is 50000 - 4294967295, not 50000 - (1000 - 1001) = 50001. *)
Lemma C3_counterexample :
  8 <= Z.of_nat (length late_buffer)
  /\ u32 late_buffer 4 = 1001
  /\ devtime fresh_parser = 1000
  /\ systime fresh_parser = 50000
  /\ reefnet_sensusultra_parser_get_datetime Z Some (installed fresh_parser late_buffer)
     = Some ((DC_STATUS_SUCCESS, Some (-4294917295)),
             [EvRead 4; EvRead 5; EvRead 6; EvRead 7])
  /\ -4294917295 <> 50000 - (1000 - 1001).
Proof.
  split; [simpl; lia|].
  split; [vm_compute; reflexivity|].
  split; [reflexivity|].
  split; [reflexivity|].
  split; [vm_compute; reflexivity | lia].
Qed.

Lemma C4_set_data_invalidates_witness :
  exists p,
    parser_set_data (Some stale_parser) dive_buffer = (DC_STATUS_SUCCESS, Some p)
    /\ cached p = 0
    /\ exists p' t,
         reefnet_sensusultra_parser_get_field 100000 p FIELD_TYPE_DIVETIME 0
                                              (Some (FV_uint 0))
         = Some ((DC_STATUS_SUCCESS, p', Some (FV_uint 10)), t).
Proof.
  destruct (C4_set_data_invalidates 101325 9.80665 100000) as (_ & H & _).
  destruct (H stale_parser dive_buffer 0 (FV_uint 0)) as (p & Hs & Hc & _ & Hq).
  - reflexivity.
  - unfold size, UINT_MAX; simpl; lia.
  - exists p. split; [exact Hs|]. split; [exact Hc|].
    destruct Hq as [Hd _]; [simpl; lia|].
    eexists. eexists. exact Hd.
Defined.

Lemma C5_gasmix_count_zero_witness :
  exists more,
    reefnet_sensusultra_parser_get_field
      100000 (installed fresh_parser dive_buffer) FIELD_TYPE_GASMIX_COUNT 0
      (Some (FV_uint 7))
    = Some ((DC_STATUS_SUCCESS, scanned (installed fresh_parser dive_buffer),
             Some (FV_uint 0)),
            map EvRead ([8; 9; 10; 11; 16; 17; 18; 19] ++ more)).
Proof.
  destruct (C5_gasmix_count_zero 100000 (installed fresh_parser dive_buffer) 0 (FV_uint 7))
    as [_ H].
  - unfold size, UINT_MAX; simpl; lia.
  - apply H. reflexivity.
Defined.

(** C5 fails as stated: on a freshly installed buffer a GASMIX_COUNT
    query reads the sample region and fills the cache. *)
Lemma C5_counterexample :
  exists p' t,
    reefnet_sensusultra_parser_get_field
      100000 (installed fresh_parser dive_buffer) FIELD_TYPE_GASMIX_COUNT 0
      (Some (FV_uint 7))
    = Some ((DC_STATUS_SUCCESS, p', Some (FV_uint 0)), t)
    /\ reads t = [8; 9; 10; 11;  16; 17; 18; 19;  18; 19;  20; 21; 22; 23;  22; 23;
                  24; 25; 26; 27]
    /\ cached (installed fresh_parser dive_buffer) = 0
    /\ cached p' = 1 /\ divetime p' = 10 /\ maxdepth p' = 200.
Proof.
  eexists. eexists. split; [vm_compute; reflexivity|]. repeat split.
Qed.

Lemma C6_other_kind_unsupported_witness :
  exists p' t,
    reefnet_sensusultra_parser_get_field
      100000 (installed fresh_parser dive_buffer) (FIELD_TYPE_OTHER 2) 0 (Some (FV_uint 7))
    = Some ((DC_STATUS_UNSUPPORTED, p', Some (FV_uint 7)), t)
    /\ reefnet_sensusultra_parser_get_field
         100000 (installed fresh_parser dive_buffer) (FIELD_TYPE_OTHER 2) 0 None
       = Some ((DC_STATUS_SUCCESS, p', None), t).
Proof.
  apply (C6_other_kind_unsupported 100000 (installed fresh_parser dive_buffer) 2 0 (FV_uint 7)).
  unfold size, UINT_MAX; simpl; lia.
Defined.

(** C6 fails as stated: with a NULL output pointer a query for another
    kind succeeds. *)
Lemma C6_counterexample :
  exists p' t,
    reefnet_sensusultra_parser_get_field
      100000 (installed fresh_parser dive_buffer) (FIELD_TYPE_OTHER 2) 0 None
    = Some ((DC_STATUS_SUCCESS, p', None), t)
    /\ DC_STATUS_SUCCESS <> DC_STATUS_UNSUPPORTED.
Proof.
  eexists. eexists. split; [vm_compute; reflexivity | discriminate].
Qed.

Lemma C7_short_buffer_dataformat_witness :
  reefnet_sensusultra_parser_get_datetime Z Some (installed fresh_parser short_buffer)
  = Some ((DC_STATUS_DATAFORMAT, None), [])
  /\ reefnet_sensusultra_parser_get_field
       100000 (installed fresh_parser short_buffer) FIELD_TYPE_DIVETIME 0 (Some (FV_uint 7))
     = Some ((DC_STATUS_DATAFORMAT, installed fresh_parser short_buffer,
              Some (FV_uint 7)), []).
Proof.
  destruct (C7_short_buffer_dataformat 100000 Z Some (installed fresh_parser short_buffer))
    as [Hd Hf].
  split.
  - apply Hd. vm_compute. reflexivity.
  - apply Hf. vm_compute. reflexivity.
Defined.

Lemma C8_second_query_cached_witness :
  exists st p1 v1 t1,
    reefnet_sensusultra_parser_get_field
      100000 (installed fresh_parser dive_buffer) FIELD_TYPE_MAXDEPTH 0 (Some (FV_uint 7))
    = Some ((st, p1, v1), t1)
    /\ reefnet_sensusultra_parser_get_field 100000 p1 FIELD_TYPE_MAXDEPTH 0 v1
       = Some ((st, p1, v1), [])
    /\ forall type' flags' value', exists r,
         reefnet_sensusultra_parser_get_field 100000 p1 type' flags' value' = Some (r, [])
         /\ snd (fst r) = p1.
Proof.
  apply (C8_second_query_cached 100000 (installed fresh_parser dive_buffer)
                                FIELD_TYPE_MAXDEPTH 0 (Some (FV_uint 7))).
  unfold size, UINT_MAX; simpl; lia.
Defined.



Lemma C10_calibration_keeps_cache_witness :
  exists p1 p2,
    reefnet_sensusultra_parser_set_calibration (Some p1) 100000 10000
    = (DC_STATUS_SUCCESS, Some p2)
    /\ cached p2 = 1
    /\ reefnet_sensusultra_parser_get_field 100000 p2 FIELD_TYPE_MAXDEPTH 0
                                            (Some (FV_uint 7))
       = Some ((DC_STATUS_SUCCESS, p2,
                Some (FV_double ((double_of_uint 200 * 100000 / 1000 - 100000) / 10000)%float)),
               [])
    /\ reefnet_sensusultra_parser_get_field 100000 p2 FIELD_TYPE_DIVETIME 0
                                            (Some (FV_uint 7))
       = Some ((DC_STATUS_SUCCESS, p2, Some (FV_uint 10)), []).
Proof.
  destruct (C10_calibration_keeps_cache 100000 fresh_parser dive_buffer 100000 10000
                                        0 (FV_uint 7))
    as (p1 & p2 & _ & Hs & _ & Hc & _ & _ & _ & _ & Hm & _ & Hd).
  - reflexivity.
  - unfold size, UINT_MAX; simpl; lia.
  - exists p1, p2. split; [exact Hs|]. split; [exact Hc|]. split; [exact Hm | exact Hd].
Defined.

(** ** Concrete runs of the further properties *)

Lemma X1_create_then_query_witness :
  exists p0 p,
    reefnet_sensusultra_parser_create 101325 9.80665 true true 1000 50000
    = (DC_STATUS_SUCCESS, Some p0)
    /\ parser_set_data (Some p0) dive_buffer = (DC_STATUS_SUCCESS, Some p)
    /\ reefnet_sensusultra_parser_get_datetime Z Some p
       = Some ((DC_STATUS_SUCCESS, Some 49900), [EvRead 4; EvRead 5; EvRead 6; EvRead 7]).
Proof.
  destruct (X1_create_then_query 101325 9.80665 100000 Z Some 1000 50000 dive_buffer
                                 0 (FV_uint 0))
    as (_ & _ & p0 & p & Hc & _ & Hs & _ & Hd).
  - unfold UINT_MAX; simpl; lia.
  - exists p0, p. split; [exact Hc|]. split; [exact Hs | exact Hd].
Defined.

Lemma X2_invalid_handle_rejected_witness :
  reefnet_sensusultra_parser_destroy (Some foreign_parser)
  = (DC_STATUS_INVALIDARGS, Some foreign_parser)
  /\ reefnet_sensusultra_parser_samples_foreach 100000 (Some foreign_parser) true
     = Some (DC_STATUS_INVALIDARGS, []).
Proof.
  destruct (X2_invalid_handle_rejected 100000 (Some foreign_parser))
    as (_ & _ & Hf & Hd & _).
  - right. exists foreign_parser. split; [reflexivity|]. simpl. discriminate.
  - split; [exact Hd | apply Hf].
Defined.

Lemma X3_calibration_survives_set_data_witness :
  exists p1 p2,
    reefnet_sensusultra_parser_set_calibration (Some fresh_parser) 100000 10000
    = (DC_STATUS_SUCCESS, Some p1)
    /\ parser_set_data (Some p1) dive_buffer = (DC_STATUS_SUCCESS, Some p2)
    /\ atmospheric p2 = 100000%float /\ hydrostatic p2 = 10000%float.
Proof.
  destruct (X3_calibration_survives_set_data 100000 fresh_parser 100000 10000
                                             dive_buffer 0 (FV_uint 0))
    as (p1 & p2 & q1 & Hc & Hs & Ha & Hh & _).
  - reflexivity.
  - unfold UINT_MAX; simpl; lia.
  - exists p1, p2. split; [exact Hc|]. split; [exact Hs|]. split; [exact Ha | exact Hh].
Defined.

Lemma X4_cached_values_in_range_witness :
  exists st p' v' t,
    reefnet_sensusultra_parser_get_field
      100000 (installed fresh_parser dive_buffer) FIELD_TYPE_DIVETIME 0 (Some (FV_uint 0))
    = Some ((st, p', v'), t)
    /\ 0 <= maxdepth p' <= 65535
    /\ divetime p' = 10.
Proof.
  destruct (X4_cached_values_in_range 100000 (installed fresh_parser dive_buffer)
                                      FIELD_TYPE_DIVETIME 0 (Some (FV_uint 0)))
    as (st & p' & v' & t & Hrun & _ & Hm & _ & _ & _ & Hd).
  - unfold size, UINT_MAX; simpl; lia.
  - reflexivity.
  - exists st, p', v', t. split; [exact Hrun|]. split; [exact Hm|].
    rewrite Hd; [reflexivity | unfold size; simpl; lia].
Defined.

Lemma X5_maxdepth_attained_witness :
  exists st p' v' t,
    reefnet_sensusultra_parser_get_field
      100000 (installed fresh_parser dive_buffer) FIELD_TYPE_MAXDEPTH 0 (Some (FV_uint 0))
    = Some ((st, p', v'), t)
    /\ depth_at dive_buffer 1 <= maxdepth p'.
Proof.
  destruct (X5_maxdepth_attained 100000 (installed fresh_parser dive_buffer)
                                 FIELD_TYPE_MAXDEPTH 0 (Some (FV_uint 0)))
    as (st & p' & v' & t & Hrun & Hub & _).
  - unfold size, UINT_MAX; simpl; lia.
  - reflexivity.
  - exists st, p', v', t. split; [exact Hrun|].
    apply (Hub 1%nat); [simpl; lia | vm_compute; discriminate].
Defined.

Lemma X6_scan_stops_at_footer_witness :
  exists st p' v' t,
    reefnet_sensusultra_parser_get_field
      100000 (installed fresh_parser dive_buffer) FIELD_TYPE_DIVETIME 0 (Some (FV_uint 0))
    = Some ((st, p', v'), t)
    /\ divetime p' = 10 /\ maxdepth p' = 200
    /\ Forall (fun o => o < 28) (reads t).
Proof.
  destruct (X6_scan_stops_at_footer 100000 (installed fresh_parser dive_buffer)
                                    first_record second_record 2
                                    FIELD_TYPE_DIVETIME 0 (Some (FV_uint 0)))
    as (st & p' & v' & t & Hrun & Hd & Hm & Hr).
  - reflexivity.
  - reflexivity.
  - unfold size, UINT_MAX; simpl; lia.
  - reflexivity.
  - exists st, p', v', t. split; [exact Hrun|]. split; [exact Hd|].
    split; [exact Hm | exact Hr].
Defined.

Lemma X7_header_bytes_unused_witness :
  exists r t,
    reefnet_sensusultra_parser_get_field
      100000 (installed fresh_parser dive_buffer) FIELD_TYPE_GASMIX_COUNT 0 None
    = Some (r, t)
    /\ Forall (fun o => 8 <= o < 12 \/ 16 <= o) (reads t).
Proof.
  destruct (X7_header_bytes_unused 100000 Z Some (installed fresh_parser dive_buffer))
    as [H _].
  - unfold size, UINT_MAX; simpl; lia.
  - apply H.
Defined.

Lemma reads_in_bounds_witness :
  exists r t,
    reefnet_sensusultra_parser_samples_foreach
      100000 (Some (installed fresh_parser dive_buffer)) true
    = Some (r, t)
    /\ Forall (in_bounds dive_buffer) (reads t).
Proof.
  destruct (reads_in_bounds 100000 Z Some (installed fresh_parser dive_buffer))
    as (_ & _ & H).
  - unfold size, UINT_MAX; simpl; lia.
  - apply H; [reflexivity | unfold size, UINT_MAX; simpl; lia].
Defined.

Lemma X9_null_callback_same_scan_witness :
  exists t0,
    reefnet_sensusultra_parser_samples_foreach
      100000 (Some (installed fresh_parser dive_buffer)) false
    = Some (DC_STATUS_SUCCESS, t0)
    /\ callbacks t0 = [].
Proof.
  destruct (X9_null_callback_same_scan 100000 (Some (installed fresh_parser dive_buffer)))
    as [_ H].
  edestruct (H DC_STATUS_SUCCESS) as (t0 & Ht0 & _ & Hcb).
  - vm_compute. reflexivity.
  - exists t0. split; [exact Ht0 | exact Hcb].
Defined.

Lemma X10_first_sentinel_anywhere_witness :
  exists t,
    reefnet_sensusultra_parser_samples_foreach
      100000 (Some (installed fresh_parser shifted_buffer)) true
    = Some (DC_STATUS_SUCCESS, t)
    /\ callback_times (callbacks t) = [10; 20].
Proof.
  destruct (X10_first_sentinel_anywhere 100000 (installed fresh_parser shifted_buffer) true)
    as [_ H].
  - reflexivity.
  - unfold size, UINT_MAX; simpl; lia.
  - destruct (H 3%nat) as (t & Ht & Hcb).
    + reflexivity.
    + intros j Hj. destruct j as [|[|[|j]]]; [discriminate | discriminate | discriminate | lia].
    + unfold size; simpl; lia.
    + exists t. split; [exact Ht|]. rewrite Hcb. reflexivity.
Defined.

Lemma X11_field_and_samples_agree_witness :
  exists t p' t',
    reefnet_sensusultra_parser_samples_foreach
      100000 (Some (installed fresh_parser dive_buffer)) true
    = Some (DC_STATUS_SUCCESS, t)
    /\ length (callbacks t) = 6%nat
    /\ reefnet_sensusultra_parser_get_field
         100000 (installed fresh_parser dive_buffer) FIELD_TYPE_DIVETIME 0
         (Some (FV_uint 0))
       = Some ((DC_STATUS_SUCCESS, p', Some (FV_uint (divetime p'))), t').
Proof.
  destruct (X11_field_and_samples_agree 100000 (installed fresh_parser dive_buffer)
                                        0 (FV_uint 0))
    as (t & p' & t' & Ht & _ & Hl & Hg & _).
  - reflexivity.
  - unfold size, UINT_MAX; simpl; lia.
  - reflexivity.
  - reflexivity.
  - exists t, p', t'. split; [exact Ht|]. split; [exact Hl | exact Hg].
Defined.

Lemma X12_datetime_not_after_sync_witness :
  exists ticks,
    reefnet_sensusultra_parser_get_datetime Z Some (installed fresh_parser dive_buffer)
    = Some (datetime_of Z Some ticks, [EvRead 4; EvRead 5; EvRead 6; EvRead 7])
    /\ 50000 - UINT_MAX <= ticks <= 50000.
Proof.
  destruct (X12_datetime_not_after_sync Z Some (installed fresh_parser dive_buffer))
    as (ticks & Hrun & Hrange & _).
  - unfold size; simpl; lia.
  - exists ticks. split; [exact Hrun | exact Hrange].
Defined.

Lemma X13_get_field_writes_cache_only_witness :
  exists st p' v' t,
    reefnet_sensusultra_parser_get_field
      100000 (installed fresh_parser dive_buffer) FIELD_TYPE_MAXDEPTH 0 (Some (FV_uint 0))
    = Some ((st, p', v'), t)
    /\ reefnet_sensusultra_parser_samples_foreach 100000 (Some p') true
       = reefnet_sensusultra_parser_samples_foreach
           100000 (Some (installed fresh_parser dive_buffer)) true.
Proof.
  destruct (X13_get_field_writes_cache_only 100000 Z Some
              (installed fresh_parser dive_buffer) FIELD_TYPE_MAXDEPTH 0 (Some (FV_uint 0)))
    as (st & p' & v' & t & Hrun & _ & _ & _ & _ & _ & _ & Hs).
  - unfold size, UINT_MAX; simpl; lia.
  - exists st, p', v', t. split; [exact Hrun | apply Hs].
Defined.

Lemma X14_truncated_unit_ignored_witness :
  exists st v' pa pb t,
    reefnet_sensusultra_parser_get_field
      100000 (installed fresh_parser (first_record ++ [x01; x02]))
      FIELD_TYPE_DIVETIME 0 (Some (FV_uint 0))
    = Some ((st, pa, v'), t)
    /\ reefnet_sensusultra_parser_get_field
         100000 (installed fresh_parser first_record)
         FIELD_TYPE_DIVETIME 0 (Some (FV_uint 0))
       = Some ((st, pb, v'), t)
    /\ divetime pa = divetime pb.
Proof.
  destruct (X14_truncated_unit_ignored 100000 fresh_parser first_record [x01; x02] 1
                                       FIELD_TYPE_DIVETIME 0 (Some (FV_uint 0)))
    as (st & v' & pa & pb & t & Ha & Hb & Hd & _).
  - reflexivity.
  - simpl; lia.
  - unfold UINT_MAX; simpl; lia.
  - exists st, v', pa, pb, t. split; [exact Ha|]. split; [exact Hb | exact Hd].
Defined.
